(** * Bank statement analysis: the transaction analysis pipeline of [app.py]

    A shallow embedding of class [AdvancedBankAnalysisDashboard]:
    preprocessing, metric computation, anomaly detection, the
    recommendation rules and the series and tables behind the charts,
    followed by the properties of the pipeline.  Of the charts the data is
    modelled, not the drawing; the fitted trend line of
    [visualize_advanced_trends] is left out.  The pipeline stops where the
    code raises: in the preprocessor on a date that cannot be parsed, and
    in the trends chart on a table without an income or an expenses
    column.

    Numbers.  The [amount] column and every statistic derived from it are
    float64 values in the program.  They are modelled by exact real numbers
    extended with the three special values of IEEE 754 (type [float]):
    rounding is left out, division by zero and the propagation of NaN and of
    the infinities are kept, since the program relies on them (it has no
    guard of its own).  Zero carries no sign.

    Frames.  A frame is the list of its rows, in order; index labels are
    left out.  Cells of the [amount] column hold finite numbers and cells of
    the [date] column are never missing; a cell of [name] may be missing. *)

From Stdlib Require Import Reals Lra Lia ZArith List String Ascii Bool.
From Stdlib Require Import Sorted Permutation DecimalString.
From Stdlib Require OrderedTypeEx.
Import ListNotations.

Set Implicit Arguments.

(* ================================================================== *)
(** * float64 values without rounding *)

Inductive float : Type :=
| Fin (x : R)
| PInf
| NInf
| NaN.

Definition Rltb (a b : R) : bool := if Rlt_dec a b then true else false.
Definition Reqb (a b : R) : bool := if Req_dec_T a b then true else false.

(** The infinity that carries the sign of [x]; NaN when [x] is zero. *)
Definition signed_inf (x : R) : float :=
  if Rltb 0 x then PInf else if Rltb x 0 then NInf else NaN.

Definition fneg (a : float) : float :=
  match a with
  | Fin x => Fin (- x)
  | PInf => NInf
  | NInf => PInf
  | NaN => NaN
  end.

Definition fsub (a b : float) : float :=
  match a, b with
  | NaN, _ | _, NaN => NaN
  | Fin x, Fin y => Fin (x - y)
  | Fin _, PInf => NInf
  | Fin _, NInf => PInf
  | PInf, PInf => NaN
  | PInf, _ => PInf
  | NInf, NInf => NaN
  | NInf, _ => NInf
  end.

Definition fadd (a b : float) : float := fsub a (fneg b).

Definition fmul (a b : float) : float :=
  match a, b with
  | NaN, _ | _, NaN => NaN
  | Fin x, Fin y => Fin (x * y)
  | Fin x, PInf | PInf, Fin x => signed_inf x
  | Fin x, NInf | NInf, Fin x => fneg (signed_inf x)
  | PInf, PInf | NInf, NInf => PInf
  | PInf, NInf | NInf, PInf => NInf
  end.

(** True division of numpy scalars: a zero divisor gives an infinity or
    NaN (with a warning), never an exception. *)
Definition fdiv (a b : float) : float :=
  match a, b with
  | NaN, _ | _, NaN => NaN
  | Fin x, Fin y => if Reqb y 0 then signed_inf x else Fin (x / y)
  | Fin _, (PInf | NInf) => Fin 0
  | PInf, Fin y => if Rltb y 0 then NInf else PInf
  | NInf, Fin y => if Rltb y 0 then PInf else NInf
  | (PInf | NInf), (PInf | NInf) => NaN
  end.

Definition fabs (a : float) : float :=
  match a with
  | Fin x => Fin (Rabs x)
  | PInf | NInf => PInf
  | NaN => NaN
  end.

(** [a < b]; every comparison with NaN is false. *)
Definition fltb (a b : float) : bool :=
  match a, b with
  | NaN, _ | _, NaN => false
  | Fin x, Fin y => Rltb x y
  | _, NInf => false
  | NInf, _ => true
  | PInf, _ => false
  | Fin _, PInf => true
  end.

Definition fgtb (a b : float) : bool := fltb b a.


(* ================================================================== *)
(** * Timestamps and periods (pandas [Timestamp], [Period], the [.dt]
      accessors) *)

Module Calendar.
Local Open Scope Z_scope.

(** A timestamp of the proleptic Gregorian calendar, to the second. *)
Record Timestamp : Type := mkTimestamp {
  year : Z; month_no : Z; day : Z; hour : Z; minute : Z; second : Z
}.

(** [Period] of frequency 'M': a month of a year. *)
Record PeriodM : Type := mkPeriodM { pm_year : Z; pm_month : Z }.

(** [Period] of frequency 'Q': a quarter of a year. *)
Record PeriodQ : Type := mkPeriodQ { pq_year : Z; pq_quarter : Z }.

(** [.dt.to_period('M')] *)
Definition to_period_M (t : Timestamp) : PeriodM :=
  mkPeriodM (year t) (month_no t).

(** [.dt.to_period('Q')]: quarters end in December. *)
Definition to_period_Q (t : Timestamp) : PeriodQ :=
  mkPeriodQ (year t) ((month_no t - 1) / 3 + 1).

(** Days since 1970-01-01. *)
Definition days_from_civil (y m d : Z) : Z :=
  let y' := if m <=? 2 then y - 1 else y in
  let era := y' / 400 in
  let yoe := y' - era * 400 in
  let mp := if m <=? 2 then m + 9 else m - 3 in
  let doy := (153 * mp + 2) / 5 + d - 1 in
  let doe := yoe * 365 + yoe / 4 - yoe / 100 + doy in
  era * 146097 + doe - 719468.

(** [.dt.dayofweek]: Monday is 0; 1970-01-01 was a Thursday. *)
Definition dayofweek (t : Timestamp) : Z :=
  (days_from_civil (year t) (month_no t) (day t) + 3) mod 7.

(** [.dt.day_name()] *)
Definition day_name (t : Timestamp) : string :=
  match dayofweek t with
  | 0 => "Monday"
  | 1 => "Tuesday"
  | 2 => "Wednesday"
  | 3 => "Thursday"
  | 4 => "Friday"
  | 5 => "Saturday"
  | _ => "Sunday"
  end%string.

Definition Timestamp_eq_dec (a b : Timestamp) : {a = b} + {a <> b}.
Proof. repeat decide equality. Defined.

Definition PeriodM_eq_dec (a b : PeriodM) : {a = b} + {a <> b}.
Proof. repeat decide equality. Defined.

Definition PeriodQ_eq_dec (a b : PeriodQ) : {a = b} + {a <> b}.
Proof. repeat decide equality. Defined.

Definition PeriodM_eqb (a b : PeriodM) : bool :=
  (pm_year a =? pm_year b) && (pm_month a =? pm_month b).

(** The order of monthly periods, by which pandas sorts group keys. *)
Definition PeriodM_ltb (a b : PeriodM) : bool :=
  (pm_year a <? pm_year b)
  || ((pm_year a =? pm_year b) && (pm_month a <? pm_month b)).

End Calendar.
Export Calendar.

(* ================================================================== *)
(** * Data frames *)

(** A cell of the [date] column: text as read from the CSV file, or a
    timestamp once it has been parsed. *)
Inductive DateCell : Type :=
| DateStr (s : string)
| DateTs (t : Timestamp).

(** A row of the frame the caller hands to the dashboard.  A column the
    frame does not have is [None] in every row; so is a missing [name]. *)
Record RawRow : Type := mkRawRow {
  raw_date : DateCell;
  raw_name : option string;
  raw_amount : R;
  raw_DrCr : string;
  raw_month : option PeriodM;
  raw_day_of_week : option string;
  raw_quarter : option PeriodQ
}.

(** A row of a preprocessed frame: all seven columns are there. *)
Record Row : Type := mkRow {
  date : Timestamp;
  name : string;
  amount : R;
  DrCr : string;
  month : PeriodM;
  day_of_week : string;
  quarter : PeriodQ
}.

Definition raw_frame : Type := list RawRow.
Definition frame : Type := list Row.

(** A preprocessed row seen as a row of a general frame again. *)
Definition as_raw (r : Row) : RawRow :=
  {| raw_date := DateTs (date r);
     raw_name := Some (name r);
     raw_amount := amount r;
     raw_DrCr := DrCr r;
     raw_month := Some (month r);
     raw_day_of_week := Some (day_of_week r);
     raw_quarter := Some (quarter r) |}.

Definition Row_eq_dec (a b : Row) : {a = b} + {a <> b}.
Proof.
  decide equality;
    solve [ apply PeriodQ_eq_dec | apply PeriodM_eq_dec | apply string_dec
          | apply Req_dec_T | apply Timestamp_eq_dec ].
Defined.

(** A row whose derived columns are the functions of its date that the
    preprocessor computes. *)
Definition derived (r : Row) : Prop :=
  month r = to_period_M (date r)
  /\ day_of_week r = day_name (date r)
  /\ quarter r = to_period_Q (date r).

(** [frame[mask]]: the rows at which the boolean mask is true. *)
Definition boolean_mask (A : Type) (rows : list A) (mask : list bool) : list A :=
  map fst (filter snd (combine rows mask)).

(** [DataFrame.drop_duplicates()]: a row equal in every column to an earlier
    row is dropped; the first occurrence stays, the order is kept. *)
Fixpoint drop_duplicates_from (seen rows : frame) : frame :=
  match rows with
  | [] => []
  | r :: rows' =>
      if in_dec Row_eq_dec r seen then drop_duplicates_from seen rows'
      else r :: drop_duplicates_from (r :: seen) rows'
  end.

Definition drop_duplicates (rows : frame) : frame :=
  drop_duplicates_from [] rows.

(* ================================================================== *)
(** * The preprocessor *)

Section Preprocessor.

(** The date parser of [pd.to_datetime] on text: [None] when the text is not
    a date (the call then raises). *)
Variable parse_datetime : string -> option Timestamp.

(** [pd.to_datetime] on one cell: a timestamp is passed through. *)
Definition to_datetime (c : DateCell) : option Timestamp :=
  match c with
  | DateStr s => parse_datetime s
  | DateTs t => Some t
  end.

(** [fillna('Unknown')] on one cell of [name]. *)
Definition fillna_Unknown (n : option string) : string :=
  match n with
  | Some s => s
  | None => "Unknown"%string
  end.

(** The five column assignments of [_preprocess_data], seen on one row. *)
Definition preprocess_row (r : RawRow) : option Row :=
  match to_datetime (raw_date r) with
  | None => None
  | Some t =>
      Some {| date := t;
              name := fillna_Unknown (raw_name r);
              amount := raw_amount r;
              DrCr := raw_DrCr r;
              month := to_period_M t;
              day_of_week := day_name t;
              quarter := to_period_Q t |}
  end.

(** The assignments on the whole frame: one unparseable date fails all. *)
Fixpoint preprocess_rows (data : raw_frame) : option frame :=
  match data with
  | [] => Some []
  | r :: data' =>
      match preprocess_row r, preprocess_rows data' with
      | Some r', Some rows => Some (r' :: rows)
      | _, _ => None
      end
  end.

(** [_preprocess_data(data)].  The assignments [data['date'] = ...] to
    [data['quarter'] = ...] write into the frame the caller passed; only
    [drop_duplicates] makes a new frame.  The result is [None] when
    [pd.to_datetime] raises (nothing has been assigned by then), else the
    pair of the caller's frame after the call and the returned frame. *)
Definition _preprocess_data (data : raw_frame) : option (raw_frame * frame) :=
  match preprocess_rows data with
  | None => None
  | Some rows => Some (map as_raw rows, drop_duplicates rows)
  end.

(** The same call on the object store: [data] is a reference. *)
Definition loc : Type := nat.
Definition store : Type := loc -> option raw_frame.

Definition store_set (h : store) (l : loc) (f : raw_frame) : store :=
  fun l' => if Nat.eqb l' l then Some f else h l'.

Definition _preprocess_data_at (l : loc) (h : store) : option (frame * store) :=
  match h l with
  | None => None
  | Some data =>
      match _preprocess_data data with
      | None => None
      | Some (data', result) => Some (result, store_set h l data')
      end
  end.

End Preprocessor.

(* ================================================================== *)
(** * Series operations (pandas, numpy, scipy) *)

Local Open Scope R_scope.

(** [Series.sum()]; the sum of the empty series is 0. *)
Definition series_sum (a : list R) : R := fold_right Rplus 0 a.

(** [Series.mean()]: sum over count, NaN on the empty series. *)
Definition series_mean (a : list R) : float :=
  fdiv (Fin (series_sum a)) (Fin (INR (List.length a))).

(** The arithmetic mean as a real number (of a series that is not empty). *)
Definition Rmean (a : list R) : R := series_sum a / INR (List.length a).

(** The sum of the squared deviations from the mean. *)
Definition sum_sq_dev (a : list R) : R :=
  series_sum (map (fun x => Rsqr (x - Rmean a)) a).

(** [Series.std()] of pandas: the sample standard deviation ([ddof=1]),
    NaN when the series has at most one value. *)
Definition series_std (a : list R) : float :=
  if (List.length a <=? 1)%nat then NaN
  else Fin (sqrt (sum_sq_dev a / INR (List.length a - 1))).

(** [ndarray.std(ddof=0)]: the population standard deviation. *)
Definition np_std (a : list R) : float :=
  match a with
  | [] => NaN
  | _ => Fin (sqrt (sum_sq_dev a / INR (List.length a)))
  end.

(** [scipy.stats.zscore(a)]: [(a - a.mean()) / a.std(ddof=0)], elementwise. *)
Definition zscore (a : list R) : list float :=
  let mn := series_mean a in
  let std := np_std a in
  map (fun x => fdiv (fsub (Fin x) mn) std) a.

(** Ascending sort of a series. *)
Fixpoint sort_insert (x : R) (v : list R) : list R :=
  match v with
  | [] => [x]
  | y :: v' => if Rle_dec x y then x :: v else y :: sort_insert x v'
  end.

Definition sort_values (a : list R) : list R :=
  fold_right sort_insert [] a.

(** [Series.quantile(num/den)] with linear interpolation between the two
    nearest ranks; NaN on the empty series. *)
Definition quantile (num den : nat) (a : list R) : float :=
  match a with
  | [] => NaN
  | _ =>
      let v := sort_values a in
      let k := (num * (List.length a - 1))%nat in
      let lo := (k / den)%nat in
      let frac := INR (k mod den) / INR den in
      Fin (nth lo v 0 + frac * (nth (S lo) v 0 - nth lo v 0))
  end.

(** [groupby(key)['amount'].sum()]: one entry per key that occurs, keys in
    ascending order, each with the sum of the amounts of its rows. *)
Fixpoint group_add (k : PeriodM) (x : R) (g : list (PeriodM * R))
  : list (PeriodM * R) :=
  match g with
  | [] => [(k, x)]
  | (k', s) :: g' =>
      if PeriodM_eqb k k' then (k', s + x) :: g'
      else if PeriodM_ltb k k' then (k, x) :: g
      else (k', s) :: group_add k x g'
  end.

Definition groupby_sum (key : Row -> PeriodM) (rows : frame)
  : list (PeriodM * R) :=
  fold_left (fun g r => group_add (key r) (amount r) g) rows [].

(** The mask of the z-score detector on one amount. *)
Definition zscore_flag (a : list R) (x : R) : bool :=
  fgtb (fabs (fdiv (fsub (Fin x) (series_mean a)) (np_std a))) (Fin 3).

(** The population variance of a series and the population z-score of a
    value against it, as real numbers: the quantities the z-score method is
    specified by. *)
Definition population_variance (a : list R) : R :=
  sum_sq_dev a / INR (List.length a).

Definition population_zscore (a : list R) (x : R) : R :=
  (x - Rmean a) / sqrt (population_variance a).

(** The entry of a key in a grouped series. *)
Fixpoint group_lookup (k : PeriodM) (g : list (PeriodM * R)) : option R :=
  match g with
  | [] => None
  | (k', s) :: g' => if PeriodM_eqb k k' then Some s else group_lookup k g'
  end.

(** The record is dated in the month [m] of the year [y]. *)
Definition in_month (y m : Z) (r : Row) : bool :=
  ((year (date r) =? y) && (month_no (date r) =? m))%Z.

(** The entry of a group: no entry for no rows, else the sum of amounts. *)
Definition group_total (rows : frame) : option R :=
  match rows with
  | [] => None
  | _ => Some (series_sum (map amount rows))
  end.

(** The entry of the rows of one key. *)
Definition key_total (key : Row -> PeriodM) (k : PeriodM) (rows : frame)
  : option R :=
  group_total (filter (fun r => PeriodM_eqb (key r) k) rows).

(** Group keys in strictly ascending order. *)
Definition keys_ascending (g : list (PeriodM * R)) : Prop :=
  StronglySorted (fun k k' => PeriodM_ltb k k' = true) (map fst g).

(** The mask of the interquartile-range detector on one amount. *)
Definition iqr_flag (a : list R) (x : R) : bool :=
  let Q1 := quantile 1 4 a in
  let Q3 := quantile 3 4 a in
  let IQR := fsub Q3 Q1 in
  fltb (Fin x) (fsub Q1 (fmul (Fin (15 / 10)) IQR))
  || fgtb (Fin x) (fadd Q3 (fmul (Fin (15 / 10)) IQR)).


(* ================================================================== *)
(** * class AdvancedBankAnalysisDashboard *)

Record AdvancedBankAnalysisDashboard : Type := mkDashboard {
  data : frame;
  credits : frame;
  debits : frame
}.

(** The attributes [__init__] sets from the preprocessed frame. *)
Definition dashboard_of (d : frame) : AdvancedBankAnalysisDashboard :=
  {| data := d;
     credits := boolean_mask d (map (fun r => String.eqb (DrCr r) "Cr") d);
     debits := boolean_mask d (map (fun r => String.eqb (DrCr r) "Db") d) |}.


Record Metrics : Type := mkMetrics {
  total_income : float;
  total_expenses : float;
  savings_rate : float;
  avg_monthly_income : float;
  avg_monthly_expenses : float;
  cash_flow_volatility : float
}.

(** The series [monthly_cash_flow]: all rows grouped by the month of
    their date. *)
Definition monthly_cash_flow (self : AdvancedBankAnalysisDashboard)
  : list (PeriodM * R) :=
  groupby_sum (fun r => to_period_M (date r)) (data self).

Definition calculate_advanced_metrics (self : AdvancedBankAnalysisDashboard)
  : Metrics :=
  let total_income := Fin (series_sum (map amount (credits self))) in
  let total_expenses := Fin (series_sum (map amount (debits self))) in
  let savings_rate :=
    fmul (fdiv (fsub total_income total_expenses) total_income) (Fin 100) in
  let monthly := map snd (monthly_cash_flow self) in
  let cash_flow_volatility :=
    fmul (fdiv (series_std monthly) (series_mean monthly)) (Fin 100) in
  {| total_income := total_income;
     total_expenses := total_expenses;
     savings_rate := savings_rate;
     avg_monthly_income :=
       series_mean (map snd (groupby_sum month (credits self)));
     avg_monthly_expenses :=
       series_mean (map snd (groupby_sum month (debits self)));
     cash_flow_volatility := cash_flow_volatility |}.

Definition _detect_zscore_anomalies (self : AdvancedBankAnalysisDashboard)
  : frame :=
  let z_scores := map fabs (zscore (map amount (data self))) in
  boolean_mask (data self) (map (fun z => fgtb z (Fin 3)) z_scores).

Definition _detect_iqr_anomalies (self : AdvancedBankAnalysisDashboard)
  : frame :=
  let Q1 := quantile 1 4 (map amount (data self)) in
  let Q3 := quantile 3 4 (map amount (data self)) in
  let IQR := fsub Q3 Q1 in
  boolean_mask (data self)
    (map (fun r =>
            fltb (Fin (amount r)) (fsub Q1 (fmul (Fin (15 / 10)) IQR))
            || fgtb (Fin (amount r)) (fadd Q3 (fmul (Fin (15 / 10)) IQR)))
         (data self)).

Record TimeAnomalies : Type := mkTimeAnomalies {
  late_night_transactions : frame;
  weekend_transactions : frame
}.

Definition isin (s : string) (values : list string) : bool :=
  existsb (String.eqb s) values.

Definition _detect_time_based_anomalies (self : AdvancedBankAnalysisDashboard)
  : TimeAnomalies :=
  {| late_night_transactions :=
       boolean_mask (data self)
         (map (fun r => (hour (date r) <? 6)%Z || (hour (date r) >? 22)%Z)
              (data self));
     weekend_transactions :=
       boolean_mask (data self)
         (map (fun r => isin (day_name (date r)) ["Saturday"; "Sunday"]%string)
              (data self)) |}.

Record Anomalies : Type := mkAnomalies {
  z_score_anomalies : frame;
  iqr_anomalies : frame;
  time_anomalies : TimeAnomalies
}.

Definition detect_anomalies_advanced (self : AdvancedBankAnalysisDashboard)
  : Anomalies :=
  let z_score_anomalies := _detect_zscore_anomalies self in
  let iqr_anomalies := _detect_iqr_anomalies self in
  let time_anomalies := _detect_time_based_anomalies self in
  {| z_score_anomalies := z_score_anomalies;
     iqr_anomalies := iqr_anomalies;
     time_anomalies := time_anomalies |}.

(* ================================================================== *)
(** * Recommendations *)

(** The six messages [generate_advanced_recommendations] can append; three
    of them carry a count. *)
Inductive Advisory : Type :=
| CriticalOverspending
| LowSavingsRate
| HighVolatility
| UnusualTransactions (z_score_count : nat)
| LateNightTransactions (late_night_count : nat)
| WeekendTransactions (weekend_count : nat).

Definition str (n : nat) : string := NilEmpty.string_of_uint (Nat.to_uint n).

(** The text of a message, after its leading pictograph. *)
Definition render (m : Advisory) : string :=
  match m with
  | CriticalOverspending =>
      "Critical: Your expenses exceed income. Urgent need to reduce spending."
  | LowSavingsRate => "Low savings rate. Consider optimizing expenses."
  | HighVolatility =>
      "High cash flow variability. Consider building an emergency fund."
  | UnusualTransactions n =>
      "Investigate " ++ str n ++ " statistically unusual transactions."
  | LateNightTransactions n =>
      str n ++ " late-night transactions detected. Potential security concern."
  | WeekendTransactions n =>
      str n ++ " weekend transactions found. Review unusual spending patterns."
  end%string.

Definition generate_advanced_recommendations
    (metrics : Metrics) (anomalies : Anomalies) : list Advisory :=
  let recommendations := [] in
  let recommendations :=
    if fltb (savings_rate metrics) (Fin 0)
    then recommendations ++ [CriticalOverspending]
    else if fltb (savings_rate metrics) (Fin 10)
    then recommendations ++ [LowSavingsRate]
    else recommendations in
  let recommendations :=
    if fgtb (cash_flow_volatility metrics) (Fin 50)
    then recommendations ++ [HighVolatility]
    else recommendations in
  let z_score_count := List.length (z_score_anomalies anomalies) in
  let iqr_count := List.length (iqr_anomalies anomalies) in
  let recommendations :=
    if (0 <? z_score_count)%nat
    then recommendations ++ [UnusualTransactions z_score_count]
    else recommendations in
  let late_night_count :=
    List.length (late_night_transactions (time_anomalies anomalies)) in
  let weekend_count :=
    List.length (weekend_transactions (time_anomalies anomalies)) in
  let recommendations :=
    if (0 <? late_night_count)%nat
    then recommendations ++ [LateNightTransactions late_night_count]
    else recommendations in
  let recommendations :=
    if (0 <? weekend_count)%nat
    then recommendations ++ [WeekendTransactions weekend_count]
    else recommendations in
  recommendations.

(** The position of a message in the fixed order of the rules; the two
    savings-rate messages share the first position. *)
Definition rule_position (m : Advisory) : nat :=
  match m with
  | CriticalOverspending | LowSavingsRate => 0
  | HighVolatility => 1
  | UnusualTransactions _ => 2
  | LateNightTransactions _ => 3
  | WeekendTransactions _ => 4
  end.

(* ================================================================== *)
(** * The analysis: metrics, anomalies and recommendations *)

Record Analysis : Type := mkAnalysis {
  metrics_of : Metrics;
  anomalies_of : Anomalies;
  recommendations_of : list Advisory
}.

(** What the analyzer computes from a preprocessed frame. *)
Definition analyse (d : frame) : Analysis :=
  let analyzer := dashboard_of d in
  let metrics := calculate_advanced_metrics analyzer in
  let anomalies := detect_anomalies_advanced analyzer in
  {| metrics_of := metrics;
     anomalies_of := anomalies;
     recommendations_of :=
       generate_advanced_recommendations metrics anomalies |}.

(* ================================================================== *)
(** * Grouping by any key (pandas [groupby], [reindex], [nlargest],
      [cumsum]) *)

(** What a group key needs: its equality and the order by which pandas
    sorts the keys of the groups. *)
Class Key (K : Type) : Type := {
  key_eqb : K -> K -> bool;
  key_ltb : K -> K -> bool
}.

Class KeyLaws (K : Type) {ops : Key K} : Prop := {
  key_eqb_eq : forall a b : K, key_eqb a b = true <-> a = b;
  key_ltb_trans :
    forall a b c : K,
      key_ltb a b = true -> key_ltb b c = true -> key_ltb a c = true;
  key_ltb_neq : forall a b : K, key_ltb a b = true -> key_eqb a b = false;
  key_ltb_total :
    forall a b : K,
      key_eqb a b = false -> key_ltb a b = false -> key_ltb b a = true
}.

Arguments KeyLaws K {ops}.

#[export] Instance string_key : Key string :=
  {| key_eqb := String.eqb; key_ltb := String.ltb |}.

#[export] Instance Z_key : Key Z :=
  {| key_eqb := Z.eqb; key_ltb := Z.ltb |}.

#[export] Instance PeriodM_key : Key PeriodM :=
  {| key_eqb := PeriodM_eqb; key_ltb := PeriodM_ltb |}.

(** Keys of several levels are ordered level by level. *)
#[export] Instance pair_key (A B : Type) {ka : Key A} {kb : Key B}
  : Key (A * B) :=
  {| key_eqb := fun p q =>
       key_eqb (fst p) (fst q) && key_eqb (snd p) (snd q);
     key_ltb := fun p q =>
       key_ltb (fst p) (fst q)
       || (key_eqb (fst p) (fst q) && key_ltb (snd p) (snd q)) |}.

(** Timestamps are ordered in time: by year, month, day, hour, minute and
    second. *)
Definition timestamp_fields (t : Timestamp) : Z * (Z * (Z * (Z * (Z * Z)))) :=
  (year t, (month_no t, (day t, (hour t, (minute t, second t))))).

#[export] Instance Timestamp_key : Key Timestamp :=
  {| key_eqb := fun a b => key_eqb (timestamp_fields a) (timestamp_fields b);
     key_ltb := fun a b => key_ltb (timestamp_fields a) (timestamp_fields b) |}.

Section GroupBy.

Context {K : Type} {ops : Key K}.

(** The groups of a frame: the keys that occur, in ascending order, each
    with its rows in the order of the frame. *)
Fixpoint group_insert (k : K) (r : Row) (g : list (K * frame))
  : list (K * frame) :=
  match g with
  | [] => [(k, [r])]
  | (k', rs) :: g' =>
      if key_eqb k k' then (k', rs ++ [r]) :: g'
      else if key_ltb k k' then (k, [r]) :: g
      else (k', rs) :: group_insert k r g'
  end.

Definition groupby (key : Row -> K) (rows : frame) : list (K * frame) :=
  fold_left (fun g r => group_insert (key r) r g) rows [].

(** The rows of the group of a key; none when the key does not occur. *)
Fixpoint get_group (k : K) (g : list (K * frame)) : frame :=
  match g with
  | [] => []
  | (k', rs) :: g' => if key_eqb k k' then rs else get_group k g'
  end.

(** An aggregation of each group: [.sum()], [.count()], [.mean()],
    [.agg([...])]. *)
Definition agg (V : Type) (f : frame -> V) (g : list (K * frame))
  : list (K * V) :=
  map (fun e => (fst e, f (snd e))) g.

(** The entry of a label in a series. *)
Fixpoint series_get (V : Type) (k : K) (s : list (K * V)) : option V :=
  match s with
  | [] => None
  | (k', x) :: s' => if key_eqb k k' then Some x else series_get k s'
  end.

(** The labels of a series, each once, in ascending order. *)
Fixpoint label_insert (k : K) (l : list K) : list K :=
  match l with
  | [] => [k]
  | k' :: l' =>
      if key_eqb k k' then l
      else if key_ltb k k' then k :: l
      else k' :: label_insert k l'
  end.

Definition sorted_labels (l : list K) : list K :=
  fold_left (fun acc k => label_insert k acc) l [].

(** Group keys in strictly ascending order. *)
Definition groups_ascending (V : Type) (g : list (K * V)) : Prop :=
  StronglySorted (fun k k' => key_ltb k k' = true) (map fst g).

End GroupBy.

Definition sum_amount (rows : frame) : R := series_sum (map amount rows).

(** [Series.reindex(labels)]: the entry of each label, NaN where the
    series has none. *)
Definition reindex (labels : list string) (s : list (string * R))
  : list (string * float) :=
  map (fun l => (l, match series_get l s with
                    | Some x => Fin x
                    | None => NaN
                    end))
      labels.

(** [Series.nlargest(n)]: the [n] largest entries, largest first; of equal
    entries the earlier one comes first. *)
Fixpoint insert_descending (K : Type) (e : K * R) (l : list (K * R))
  : list (K * R) :=
  match l with
  | [] => [e]
  | e' :: l' =>
      if Rlt_dec (snd e') (snd e) then e :: l
      else e' :: insert_descending e l'
  end.

Definition sort_descending (K : Type) (s : list (K * R)) : list (K * R) :=
  fold_left (fun acc e => insert_descending e acc) s [].

Definition nlargest (K : Type) (n : nat) (s : list (K * R)) : list (K * R) :=
  firstn n (sort_descending s).

(** [Series.cumsum()]: the running sums. *)
Fixpoint cumsum_from (acc : R) (a : list R) : list R :=
  match a with
  | [] => []
  | x :: a' => (acc + x) :: cumsum_from (acc + x) a'
  end.

Definition cumsum (a : list R) : list R :=
  match a with
  | [] => []
  | x :: a' => x :: cumsum_from x a'
  end.

(* ================================================================== *)
(** * The data of the charts *)

Definition day_order : list string :=
  ["Monday"; "Tuesday"; "Wednesday"; "Thursday"; "Friday"; "Saturday";
   "Sunday"]%string.

(** [visualize_comprehensive_distribution]: the series [day_spending] of
    the bar chart, the Debit amounts summed by day of the week. *)
Definition day_spending (self : AdvancedBankAnalysisDashboard)
  : list (string * float) :=
  let day_spending := agg sum_amount (groupby day_of_week (debits self)) in
  reindex day_order day_spending.

(** [visualize_comprehensive_distribution]: the series [category_spending]
    of the treemap, the fifteen names with the largest Debit sums. *)
Definition category_spending (self : AdvancedBankAnalysisDashboard)
  : list (string * R) :=
  nlargest 15 (agg sum_amount (groupby name (debits self))).

(** [visualize_additional_insights]: the series [cumulative_cash_flow],
    the running sums of the amounts summed by timestamp. *)
Definition cumulative_cash_flow (self : AdvancedBankAnalysisDashboard)
  : list (Timestamp * R) :=
  let by_date := agg sum_amount (groupby date (data self)) in
  combine (map fst by_date) (cumsum (map snd by_date)).





(** A table: the labels of its rows and of its columns, and its cells,
    [None] for a missing value (NaN). *)
Record Table (A B V : Type) : Type := mkTable {
  index : list A;
  columns : list B;
  cell : A -> B -> option V
}.

(** [Series.unstack()] of a series with keys of two levels: a row for each
    key of the first level and a column for each key of the second level,
    both ascending; a cell is missing where the series has no entry. *)
Definition unstack (A B V : Type) {ka : Key A} {kb : Key B}
    (s : list ((A * B) * V)) : Table A B V :=
  {| index := sorted_labels (map (fun e => fst (fst e)) s);
     columns := sorted_labels (map (fun e => snd (fst e)) s);
     cell := fun a b => series_get (a, b) s |}.

(** [table[b]]: the column of a label, a value for each row; [None] when
    the table has no column of this label (the access raises KeyError). *)
Definition column (A B V : Type) {kb : Key B} (t : Table A B V) (b : B)
  : option (list (A * option V)) :=
  if existsb (key_eqb b) (columns t)
  then Some (map (fun a => (a, cell t a b)) (index t))
  else None.

(** [visualize_advanced_trends]: the table [monthly_summary], the amounts
    summed by month and direction, and the two columns drawn as the income
    and the expenses traces. *)
Definition monthly_summary (self : AdvancedBankAnalysisDashboard)
  : Table PeriodM string R :=
  unstack
    (agg sum_amount
       (groupby (fun r => (to_period_M (date r), DrCr r)) (data self))).

Definition income_trace (self : AdvancedBankAnalysisDashboard)
  : option (list (PeriodM * option R)) :=
  column (monthly_summary self) "Cr"%string.

Definition expenses_trace (self : AdvancedBankAnalysisDashboard)
  : option (list (PeriodM * option R)) :=
  column (monthly_summary self) "Db"%string.

(** [visualize_additional_insights]: the table [transaction_freq] of the
    heatmap, the number of records by day name and hour. *)
Definition transaction_freq (self : AdvancedBankAnalysisDashboard)
  : Table string Z nat :=
  unstack
    (agg (fun rows => List.length rows)
       (groupby (fun r => (day_name (date r), hour (date r))) (data self))).

(** The height of a bar: a missing value draws nothing. *)
Definition bar_height (x : float) : R :=
  match x with
  | Fin h => h
  | _ => 0
  end.

(** The entry of a group, by the rows of the group: none for no rows. *)
Definition entry_of (V : Type) (f : frame -> V) (rows : frame) : option V :=
  match rows with
  | [] => None
  | _ => Some (f rows)
  end.

(* ================================================================== *)
(** * The pipeline of [render_advanced_dashboard] *)




(* ================================================================== *)
(** * A date parser for the examples

    [pd.to_datetime] accepts many formats; the examples below use this
    parser of [YYYY-MM-DD], optionally followed by a blank and [HH:MM]. *)

Module IsoDate.
Local Open Scope Z_scope.

Definition digit (c : ascii) : option Z :=
  let n := Z.of_nat (nat_of_ascii c) in
  if (48 <=? n) && (n <=? 57) then Some (n - 48) else None.

(** Reads exactly [n] decimal digits. *)
Fixpoint number (n : nat) (acc : Z) (s : string) : option (Z * string) :=
  match n with
  | O => Some (acc, s)
  | S n' =>
      match s with
      | String c s' =>
          match digit c with
          | Some d => number n' (10 * acc + d) s'
          | None => None
          end
      | EmptyString => None
      end
  end.

Definition expect (c : ascii) (s : string) : option string :=
  match s with
  | String c' s' => if Ascii.eqb c c' then Some s' else None
  | EmptyString => None
  end.

Definition days_in_month (y m : Z) : Z :=
  if m =? 2 then
    if ((y mod 4 =? 0) && negb (y mod 100 =? 0)) || (y mod 400 =? 0)
    then 29 else 28
  else if (m =? 4) || (m =? 6) || (m =? 9) || (m =? 11) then 30 else 31.

Definition time_of_day (s : string) : option (Z * Z) :=
  match s with
  | EmptyString => Some (0, 0)
  | _ =>
      match expect " " s with
      | None => None
      | Some s1 =>
          match number 2 0 s1 with
          | None => None
          | Some (h, s2) =>
              match expect ":" s2 with
              | None => None
              | Some s3 =>
                  match number 2 0 s3 with
                  | Some (mi, EmptyString) =>
                      if (h <=? 23) && (mi <=? 59) then Some (h, mi) else None
                  | _ => None
                  end
              end
          end
      end
  end.

Definition parse (s : string) : option Timestamp :=
  match number 4 0 s with
  | None => None
  | Some (y, s1) =>
  match expect "-" s1 with
  | None => None
  | Some s2 =>
  match number 2 0 s2 with
  | None => None
  | Some (m, s3) =>
  match expect "-" s3 with
  | None => None
  | Some s4 =>
  match number 2 0 s4 with
  | None => None
  | Some (d, s5) =>
  match time_of_day s5 with
  | None => None
  | Some (h, mi) =>
      if (1 <=? m) && (m <=? 12) && (1 <=? d) && (d <=? days_in_month y m)
      then Some (mkTimestamp y m d h mi 0)
      else None
  end end end end end end.

End IsoDate.

(* ================================================================== *)
(** * The example record sets of the specification *)

Definition raw_record (d : string) (n : option string) (x : R) (dir : string)
  : RawRow :=
  mkRawRow (DateStr d) n x dir None None None.

(** Credit 100; Debits 5000 and 90. *)
Definition example_raw : raw_frame :=
  [ raw_record "2024-01-03 14:00" None 100 "Cr";
    raw_record "2024-01-10 23:30" None 5000 "Db";
    raw_record "2024-01-15 10:00" None 90 "Db" ].

Definition example_rows : frame :=
  [ mkRow (mkTimestamp 2024 1 3 14 0 0) "Unknown" 100 "Cr"
          (mkPeriodM 2024 1) "Wednesday" (mkPeriodQ 2024 1);
    mkRow (mkTimestamp 2024 1 10 23 30 0) "Unknown" 5000 "Db"
          (mkPeriodM 2024 1) "Wednesday" (mkPeriodQ 2024 1);
    mkRow (mkTimestamp 2024 1 15 10 0 0) "Unknown" 90 "Db"
          (mkPeriodM 2024 1) "Monday" (mkPeriodQ 2024 1) ].

(** A preprocessed row from the four columns of the input. *)
Definition row_at (t : Timestamp) (n : string) (x : R) (dir : string) : Row :=
  mkRow t n x dir (to_period_M t) (day_name t) (to_period_Q t).



(** Two salaries, in January 2023 and in January 2024. *)
Definition two_januaries_raw : raw_frame :=
  [ raw_record "2023-01-15" (Some "Salary"%string) 100 "Cr";
    raw_record "2024-01-15" (Some "Salary"%string) 300 "Cr" ].

Definition january_2023 : Row :=
  row_at (mkTimestamp 2023 1 15 0 0 0) "Salary" 100 "Cr".

Definition january_2024 : Row :=
  row_at (mkTimestamp 2024 1 15 0 0 0) "Salary" 300 "Cr".

(** The duplicate row of the specification, read twice. *)
Definition duplicate_raw : raw_frame :=
  [ raw_record "2024-02-01" (Some "X"%string) 50 "Db";
    raw_record "2024-02-01" (Some "X"%string) 50 "Db" ].

Definition duplicate_row : Row :=
  mkRow (mkTimestamp 2024 2 1 0 0 0) "X" 50 "Db"
        (mkPeriodM 2024 2) "Thursday" (mkPeriodQ 2024 1).

(** A record whose direction is spelled "Dr". *)
Definition other_direction_raw : raw_frame :=
  [ raw_record "2024-02-01" (Some "X"%string) 50 "Dr" ].

Definition other_direction_row : Row :=
  mkRow (mkTimestamp 2024 2 1 0 0 0) "X" 50 "Dr"
        (mkPeriodM 2024 2) "Thursday" (mkPeriodQ 2024 1).



(** An object store that holds [duplicate_raw] at reference 0. *)
Definition example_store : store :=
  store_set (fun _ => None) 0%nat duplicate_raw.

(* ================================================================== *)
(** * Lemmas on frames *)

Unset Implicit Arguments.

Lemma boolean_mask_map (A : Type) (p : A -> bool) (rows : list A) :
  boolean_mask rows (map p rows) = filter p rows.
Proof.
  unfold boolean_mask.
  induction rows as [|r rows IH]; simpl; [reflexivity|].
  destruct (p r); simpl; rewrite IH; reflexivity.
Qed.

Lemma credits_filter (d : frame) :
  credits (dashboard_of d) = filter (fun r => String.eqb (DrCr r) "Cr") d.
Proof. apply boolean_mask_map. Qed.

Lemma debits_filter (d : frame) :
  debits (dashboard_of d) = filter (fun r => String.eqb (DrCr r) "Db") d.
Proof. apply boolean_mask_map. Qed.

Section DropDuplicates.

Lemma drop_duplicates_from_In (rows seen : frame) (x : Row) :
  In x (drop_duplicates_from seen rows) <-> In x rows /\ ~ In x seen.
Proof.
  revert seen.
  induction rows as [|r rows IH]; intros seen; simpl.
  - tauto.
  - destruct (in_dec Row_eq_dec r seen) as [Hin|Hout].
    + rewrite IH. split.
      * tauto.
      * intros [[->|Hx] Hs]; [contradiction | tauto].
    + simpl. rewrite IH. simpl. split.
      * intros [->|[Hx Hs]]; [tauto|]. split; [tauto|]. intro; apply Hs; tauto.
      * intros [[->|Hx] Hs]; [tauto|].
        destruct (Row_eq_dec r x) as [->|Hne]; [tauto|].
        right. split; [assumption|]. intros [?|?]; [congruence | tauto].
Qed.

Lemma drop_duplicates_from_NoDup (rows seen : frame) :
  NoDup (drop_duplicates_from seen rows).
Proof.
  revert seen.
  induction rows as [|r rows IH]; intros seen; simpl.
  - constructor.
  - destruct (in_dec Row_eq_dec r seen); [apply IH|].
    constructor; [|apply IH].
    rewrite drop_duplicates_from_In. simpl. tauto.
Qed.

Lemma drop_duplicates_from_fixed (rows seen : frame) :
  NoDup rows -> (forall x, In x rows -> ~ In x seen) ->
  drop_duplicates_from seen rows = rows.
Proof.
  revert seen.
  induction rows as [|r rows IH]; intros seen Hnd Hdis; simpl;
    [reflexivity|].
  inversion Hnd as [|? ? Hr Hnd']; subst.
  destruct (in_dec Row_eq_dec r seen) as [Hin|_].
  - exfalso. apply (Hdis r); simpl; tauto.
  - f_equal. apply IH; [assumption|].
    intros x Hx [<-|Hs]; [contradiction|].
    apply (Hdis x); simpl; tauto.
Qed.

Lemma drop_duplicates_In (rows : frame) (x : Row) :
  In x (drop_duplicates rows) <-> In x rows.
Proof. unfold drop_duplicates. rewrite drop_duplicates_from_In. simpl. tauto. Qed.

Lemma drop_duplicates_NoDup (rows : frame) : NoDup (drop_duplicates rows).
Proof. apply drop_duplicates_from_NoDup. Qed.

Lemma drop_duplicates_fixed (rows : frame) :
  NoDup rows -> drop_duplicates rows = rows.
Proof. intros H. apply drop_duplicates_from_fixed; [assumption | auto]. Qed.

Lemma drop_duplicates_idempotent (rows : frame) :
  drop_duplicates (drop_duplicates rows) = drop_duplicates rows.
Proof. apply drop_duplicates_fixed, drop_duplicates_NoDup. Qed.

End DropDuplicates.

Section PreprocessorLemmas.

Variable parse_datetime : string -> option Timestamp.

Lemma preprocess_row_derived (r : RawRow) (r' : Row) :
  preprocess_row parse_datetime r = Some r' -> derived r'.
Proof.
  unfold preprocess_row.
  destruct (to_datetime parse_datetime (raw_date r)); [|discriminate].
  intros [= <-]. repeat split.
Qed.

Lemma preprocess_row_as_raw (r : Row) :
  derived r -> preprocess_row parse_datetime (as_raw r) = Some r.
Proof.
  intros (Hm & Hd & Hq). destruct r as [t n x dir m dw q]; simpl in *.
  unfold preprocess_row; simpl. subst. reflexivity.
Qed.

Lemma preprocess_rows_derived (data : raw_frame) (rows : frame) :
  preprocess_rows parse_datetime data = Some rows -> Forall derived rows.
Proof.
  revert rows.
  induction data as [|r data IH]; simpl; intros rows.
  - intros [= <-]. constructor.
  - destruct (preprocess_row parse_datetime r) as [r'|] eqn:Hr; [|discriminate].
    destruct (preprocess_rows parse_datetime data) as [rows'|]; [|discriminate].
    intros [= <-]. constructor; [|apply IH; reflexivity].
    eapply preprocess_row_derived; eassumption.
Qed.

Lemma preprocess_rows_as_raw (rows : frame) :
  Forall derived rows ->
  preprocess_rows parse_datetime (map as_raw rows) = Some rows.
Proof.
  induction 1 as [|r rows Hr _ IH]; cbn [map preprocess_rows]; [reflexivity|].
  rewrite (preprocess_row_as_raw r Hr), IH. reflexivity.
Qed.

Lemma preprocess_rows_length (data : raw_frame) (rows : frame) :
  preprocess_rows parse_datetime data = Some rows ->
  List.length rows = List.length data.
Proof.
  revert rows.
  induction data as [|r data IH]; simpl; intros rows.
  - intros [= <-]. reflexivity.
  - destruct (preprocess_row parse_datetime r); [|discriminate].
    destruct (preprocess_rows parse_datetime data); [|discriminate].
    intros [= <-]. simpl. f_equal. apply IH. reflexivity.
Qed.

Lemma preprocess_rows_columns (data : raw_frame) (rows : frame) :
  preprocess_rows parse_datetime data = Some rows ->
  map amount rows = map raw_amount data
  /\ map DrCr rows = map raw_DrCr data
  /\ map name rows = map (fun r => fillna_Unknown (raw_name r)) data
  /\ map (fun r => Some (date r)) rows
     = map (fun r => to_datetime parse_datetime (raw_date r)) data.
Proof.
  revert rows.
  induction data as [|r data IH]; cbn [preprocess_rows map]; intros rows.
  - intros [= <-]. repeat split.
  - unfold preprocess_row at 1.
    destruct (to_datetime parse_datetime (raw_date r)) as [t|] eqn:Ht;
      [|discriminate].
    destruct (preprocess_rows parse_datetime data) as [rows'|]; [|discriminate].
    intros [= <-].
    destruct (IH rows' eq_refl) as (E1 & E2 & E3 & E4).
    cbn [map amount DrCr name date].
    rewrite E1, E2, E3, E4. repeat split.
Qed.

Lemma Forall_derived_drop_duplicates (rows : frame) :
  Forall derived rows -> Forall derived (drop_duplicates rows).
Proof.
  rewrite !Forall_forall. intros H x Hx.
  apply H. apply drop_duplicates_In. assumption.
Qed.

End PreprocessorLemmas.

(* ================================================================== *)
(** * Lemmas on numbers and series *)

Lemma Rltb_true (a b : R) : Rltb a b = true <-> a < b.
Proof. unfold Rltb. destruct (Rlt_dec a b); split; intros; try discriminate; tauto. Qed.

Lemma Rltb_false (a b : R) : Rltb a b = false <-> b <= a.
Proof.
  unfold Rltb. destruct (Rlt_dec a b); split; intros; try discriminate;
    try reflexivity; lra.
Qed.

Lemma Reqb_true (a b : R) : Reqb a b = true <-> a = b.
Proof. unfold Reqb. destruct (Req_dec_T a b); split; intros; try discriminate; tauto. Qed.

Lemma Reqb_false (a b : R) : Reqb a b = false <-> a <> b.
Proof.
  unfold Reqb. destruct (Req_dec_T a b); split; intros; try discriminate;
    try reflexivity; tauto.
Qed.

(** Decides the comparisons of real numbers left in a goal on concrete
    numbers. *)
Ltac decide_reals :=
  unfold signed_inf, Rltb, Reqb;
  repeat match goal with
         | |- context [Rlt_dec ?a ?b] => destruct (Rlt_dec a b); try lra
         | |- context [Rle_dec ?a ?b] => destruct (Rle_dec a b); try lra
         | |- context [Req_dec_T ?a ?b] => destruct (Req_dec_T a b); try lra
         end.

Lemma fdiv_fin (x y : R) : y <> 0 -> fdiv (Fin x) (Fin y) = Fin (x / y).
Proof. intros H. simpl. apply Reqb_false in H. rewrite H. reflexivity. Qed.


Lemma signed_inf_zero : signed_inf 0 = NaN.
Proof. decide_reals. reflexivity. Qed.



Lemma series_sum_app (a b : list R) :
  series_sum (a ++ b) = series_sum a + series_sum b.
Proof. induction a as [|x a IH]; simpl; [lra | rewrite IH; lra]. Qed.

Lemma INR_length_cons_neq_0 (A : Type) (x : A) (a : list A) :
  INR (List.length (x :: a)) <> 0.
Proof. apply not_0_INR. simpl. discriminate. Qed.

Lemma series_mean_fin (x : R) (a : list R) :
  series_mean (x :: a) = Fin (Rmean (x :: a)).
Proof. unfold series_mean, Rmean. apply fdiv_fin, INR_length_cons_neq_0. Qed.

(* ================================================================== *)
(** * The metrics *)

(** The example record set of the specification, preprocessed. *)
Lemma example_rows_NoDup : NoDup example_rows.
Proof.
  unfold example_rows.
  repeat constructor; simpl; intuition discriminate.
Qed.

Lemma example_preprocessed :
  _preprocess_data IsoDate.parse example_raw
  = Some (map as_raw example_rows, example_rows).
Proof.
  unfold _preprocess_data.
  replace (preprocess_rows IsoDate.parse example_raw) with (Some example_rows)
    by reflexivity.
  rewrite (drop_duplicates_fixed _ example_rows_NoDup). reflexivity.
Qed.

Lemma example_metrics :
  calculate_advanced_metrics (dashboard_of example_rows)
  = mkMetrics (Fin 100) (Fin 5090) (Fin (-4990)) (Fin 100) (Fin 5090) NaN.
Proof.
  assert (Hc : credits (dashboard_of example_rows)
               = [nth 0 example_rows duplicate_row]) by reflexivity.
  assert (Hb : debits (dashboard_of example_rows)
               = [nth 1 example_rows duplicate_row;
                  nth 2 example_rows duplicate_row]) by reflexivity.
  assert (Hg : monthly_cash_flow (dashboard_of example_rows)
               = [(mkPeriodM 2024 1, 100 + 5000 + 90)]) by reflexivity.
  unfold calculate_advanced_metrics. rewrite Hg, Hc, Hb.
  assert (Hi : groupby_sum month [nth 0 example_rows duplicate_row]
               = [(mkPeriodM 2024 1, 100)]) by reflexivity.
  assert (He : groupby_sum month [nth 1 example_rows duplicate_row;
                                  nth 2 example_rows duplicate_row]
               = [(mkPeriodM 2024 1, 5000 + 90)]) by reflexivity.
  rewrite Hi, He.
  unfold series_mean, series_std.
  cbn [nth example_rows map amount snd series_sum fold_right List.length INR
       Nat.leb fsub fdiv fmul].
  decide_reals. cbn [fmul]. f_equal; f_equal; lra.
Qed.

(** C1.  Whenever the Credit amounts do not sum to zero, the metrics hold
    total_income = the sum of the Credit amounts, total_expenses = the sum
    of the Debit amounts and savings_rate = (total_income - total_expenses)
    / total_income * 100.  The record set Credit 100, Debit 5000, Debit 90
    of the specification preprocesses to [example_rows], whose metrics are
    100, 5090 and -4990. *)
Theorem savings_rate_formula :
  (forall d : frame,
      let m := calculate_advanced_metrics (dashboard_of d) in
      let income :=
        series_sum (map amount (filter (fun r => String.eqb (DrCr r) "Cr") d)) in
      let expenses :=
        series_sum (map amount (filter (fun r => String.eqb (DrCr r) "Db") d)) in
      income <> 0 ->
      total_income m = Fin income
      /\ total_expenses m = Fin expenses
      /\ savings_rate m = Fin ((income - expenses) / income * 100))
  /\ (_preprocess_data IsoDate.parse example_raw
      = Some (map as_raw example_rows, example_rows)
      /\ let m := calculate_advanced_metrics (dashboard_of example_rows) in
         total_income m = Fin 100
         /\ total_expenses m = Fin 5090
         /\ savings_rate m = Fin (-4990)).
Proof.
  split.
  - intros d m income expenses Hne. subst m.
    unfold calculate_advanced_metrics.
    cbn [total_income total_expenses savings_rate].
    rewrite credits_filter, debits_filter.
    fold income expenses.
    repeat split.
    cbn [fsub]. rewrite (fdiv_fin _ _ Hne). reflexivity.
  - split; [exact example_preprocessed|].
    cbv zeta. rewrite example_metrics. repeat split.
Qed.

Lemma savings_rate_formula_witness :
  let m := calculate_advanced_metrics (dashboard_of example_rows) in
  total_income m = Fin (100 + 0)
  /\ total_expenses m = Fin (5000 + (90 + 0))
  /\ savings_rate m
     = Fin ((100 + 0 - (5000 + (90 + 0))) / (100 + 0) * 100).
Proof.
  apply (proj1 savings_rate_formula example_rows).
  simpl. lra.
Defined.

(* ================================================================== *)
(** * The recommendation rules *)

(** C8.  The recommendations do not depend on the IQR anomaly set: two
    anomaly bundles that differ in it only give the same list, and no
    message is appended for it. *)
Theorem recommendations_ignore_iqr
    (metrics : Metrics) (z iqr iqr' : frame) (t : TimeAnomalies) :
  generate_advanced_recommendations metrics (mkAnomalies z iqr t)
  = generate_advanced_recommendations metrics (mkAnomalies z iqr' t).
Proof. reflexivity. Qed.

(** C9.  At most five messages are returned, in the order of the rules:
    a savings-rate message (critical or low, not both), volatility, z-score
    count, late-night count, weekend count. *)
Theorem recommendations_ordered (metrics : Metrics) (anomalies : Anomalies) :
  let recs := generate_advanced_recommendations metrics anomalies in
  (List.length recs <= 5)%nat
  /\ StronglySorted (fun m m' => (rule_position m < rule_position m')%nat) recs
  /\ ~ (In CriticalOverspending recs /\ In LowSavingsRate recs).
Proof.
  unfold generate_advanced_recommendations.
  destruct (fltb (savings_rate metrics) (Fin 0));
    [|destruct (fltb (savings_rate metrics) (Fin 10))];
    destruct (fgtb (cash_flow_volatility metrics) (Fin 50));
    destruct (0 <? List.length (z_score_anomalies anomalies))%nat;
    destruct (0 <? List.length
                     (late_night_transactions (time_anomalies anomalies)))%nat;
    destruct (0 <? List.length
                     (weekend_transactions (time_anomalies anomalies)))%nat;
    cbn [app List.length];
    (split; [lia|]);
    (split;
     [ repeat (constructor; cbn [rule_position]; try lia)
     | cbn [In]; intros [H1 H2];
       repeat match goal with
              | H : _ \/ _ |- _ => destruct H
              end; try discriminate; try contradiction ]).
Qed.

(* ================================================================== *)
(** * The preprocessor and the construction of the analyzer *)

Lemma duplicate_preprocessed :
  _preprocess_data IsoDate.parse duplicate_raw
  = Some (map as_raw [duplicate_row; duplicate_row], [duplicate_row]).
Proof.
  unfold _preprocess_data.
  replace (preprocess_rows IsoDate.parse duplicate_raw)
    with (Some [duplicate_row; duplicate_row]) by reflexivity.
  unfold drop_duplicates. cbn [drop_duplicates_from].
  destruct (in_dec Row_eq_dec duplicate_row []) as [[]|_].
  destruct (in_dec Row_eq_dec duplicate_row [duplicate_row]) as [_|Hn].
  - reflexivity.
  - exfalso. apply Hn. left. reflexivity.
Qed.

Lemma other_direction_preprocessed :
  _preprocess_data IsoDate.parse other_direction_raw
  = Some (map as_raw [other_direction_row], [other_direction_row]).
Proof.
  unfold _preprocess_data.
  replace (preprocess_rows IsoDate.parse other_direction_raw)
    with (Some [other_direction_row]) by reflexivity.
  rewrite drop_duplicates_fixed; [reflexivity|].
  repeat constructor. simpl. tauto.
Qed.

(** C5.  Preprocessing is idempotent: run on the frame it returned, the
    preprocessor succeeds and returns that frame again, row for row; run on
    the frame it assigned into, it returns the same frame too. *)
Theorem preprocess_idempotent
    (parse_datetime : string -> option Timestamp)
    (raw raw' : raw_frame) (out : frame) :
  _preprocess_data parse_datetime raw = Some (raw', out) ->
  _preprocess_data parse_datetime (map as_raw out) = Some (map as_raw out, out)
  /\ _preprocess_data parse_datetime raw' = Some (raw', out).
Proof.
  unfold _preprocess_data.
  destruct (preprocess_rows parse_datetime raw) as [rows|] eqn:Hrows;
    [|discriminate].
  intros [= <- <-].
  pose proof (preprocess_rows_derived _ _ _ Hrows) as Hd.
  rewrite (preprocess_rows_as_raw parse_datetime
             _ (Forall_derived_drop_duplicates _ Hd)).
  rewrite (preprocess_rows_as_raw parse_datetime _ Hd).
  rewrite drop_duplicates_idempotent. split; reflexivity.
Qed.

Lemma preprocess_idempotent_witness :
  _preprocess_data IsoDate.parse (map as_raw [duplicate_row])
  = Some (map as_raw [duplicate_row], [duplicate_row])
  /\ _preprocess_data IsoDate.parse
       (map as_raw [duplicate_row; duplicate_row])
     = Some (map as_raw [duplicate_row; duplicate_row], [duplicate_row]).
Proof.
  apply (preprocess_idempotent IsoDate.parse duplicate_raw).
  exact duplicate_preprocessed.
Defined.

(** C6, as stated, does not hold: after the call the frame of the
    caller holds parsed dates and the derived columns. *)
Lemma preprocess_frame_effect_counterexample :
  exists (out : frame) (h' : store),
    _preprocess_data_at IsoDate.parse 0%nat example_store = Some (out, h')
    /\ h' 0%nat <> example_store 0%nat.
Proof.
  exists [duplicate_row],
         (store_set example_store 0%nat (map as_raw [duplicate_row; duplicate_row])).
  split.
  - unfold _preprocess_data_at.
    change (example_store 0%nat) with (Some duplicate_raw).
    cbv beta iota. rewrite duplicate_preprocessed. reflexivity.
  - unfold example_store, store_set. simpl. discriminate.
Qed.

(** C6, amended.  A successful call replaces the frame of the caller, in
    place, by its rows with the date parsed, the name filled and the three
    derived columns assigned: as many rows in the same order (duplicates
    stay), the amount and direction columns as they were.  The returned
    frame is this frame without its duplicate rows, and no other object of
    the store changes.  A call that fails changes nothing. *)
Theorem preprocess_frame_effect
    (parse_datetime : string -> option Timestamp)
    (l : loc) (h : store) (data : raw_frame) :
  h l = Some data ->
  match _preprocess_data_at parse_datetime l h with
  | None => preprocess_rows parse_datetime data = None
  | Some (out, h') =>
      exists rows : frame,
        preprocess_rows parse_datetime data = Some rows
        /\ h' l = Some (map as_raw rows)
        /\ (forall l' : loc, l' <> l -> h' l' = h l')
        /\ out = drop_duplicates rows
        /\ List.length rows = List.length data
        /\ map raw_amount (map as_raw rows) = map raw_amount data
        /\ map raw_DrCr (map as_raw rows) = map raw_DrCr data
  end.
Proof.
  intros Hl. unfold _preprocess_data_at, _preprocess_data. rewrite Hl.
  destruct (preprocess_rows parse_datetime data) as [rows|] eqn:Hrows;
    [|reflexivity].
  exists rows.
  destruct (preprocess_rows_columns _ _ _ Hrows) as (Ha & Hd & _ & _).
  repeat split.
  - unfold store_set. rewrite Nat.eqb_refl. reflexivity.
  - intros l' Hne. unfold store_set.
    apply Nat.eqb_neq in Hne. rewrite Hne. reflexivity.
  - eapply preprocess_rows_length; eassumption.
  - rewrite map_map. exact Ha.
  - rewrite map_map. exact Hd.
Qed.

Lemma preprocess_frame_effect_witness :
  match _preprocess_data_at IsoDate.parse 0%nat example_store with
  | None => preprocess_rows IsoDate.parse duplicate_raw = None
  | Some (out, h') =>
      exists rows : frame,
        preprocess_rows IsoDate.parse duplicate_raw = Some rows
        /\ h' 0%nat = Some (map as_raw rows)
        /\ (forall l' : loc, l' <> 0%nat -> h' l' = example_store l')
        /\ out = drop_duplicates rows
        /\ List.length rows = List.length duplicate_raw
        /\ map raw_amount (map as_raw rows) = map raw_amount duplicate_raw
        /\ map raw_DrCr (map as_raw rows) = map raw_DrCr duplicate_raw
  end.
Proof.
  apply (preprocess_frame_effect IsoDate.parse 0%nat example_store).
  reflexivity.
Defined.

(** C7, as stated, does not hold: a preprocessed record whose
    direction is spelled "Dr" is in neither subset. *)
Lemma direction_partition_counterexample :
  _preprocess_data IsoDate.parse other_direction_raw
  = Some (map as_raw [other_direction_row], [other_direction_row])
  /\ let self := dashboard_of [other_direction_row] in
     In other_direction_row (data self)
     /\ DrCr other_direction_row <> "Cr"%string
     /\ DrCr other_direction_row <> "Db"%string
     /\ ~ In other_direction_row (credits self)
     /\ ~ In other_direction_row (debits self).
Proof.
  split; [exact other_direction_preprocessed|].
  cbv zeta. rewrite credits_filter, debits_filter.
  simpl. repeat split; try discriminate; tauto.
Qed.

(** C7, amended.  The Credits subset holds the records whose direction is
    "Cr", the Debits subset those whose direction is "Db"; the two are
    disjoint; their union is the full record set exactly when every record
    has one of these two directions. *)
Theorem direction_partition (d : frame) :
  let self := dashboard_of d in
  (forall r, In r (credits self) <-> In r d /\ DrCr r = "Cr"%string)
  /\ (forall r, In r (debits self) <-> In r d /\ DrCr r = "Db"%string)
  /\ (forall r, ~ (In r (credits self) /\ In r (debits self)))
  /\ ((forall r, In r d -> In r (credits self) \/ In r (debits self))
      <-> (forall r, In r d -> DrCr r = "Cr"%string \/ DrCr r = "Db"%string)).
Proof.
  cbv zeta. rewrite credits_filter, debits_filter.
  assert (Hc : forall r, In r (filter (fun r => String.eqb (DrCr r) "Cr") d)
                         <-> In r d /\ DrCr r = "Cr"%string).
  { intros r. rewrite filter_In, String.eqb_eq. reflexivity. }
  assert (Hd : forall r, In r (filter (fun r => String.eqb (DrCr r) "Db") d)
                         <-> In r d /\ DrCr r = "Db"%string).
  { intros r. rewrite filter_In, String.eqb_eq. reflexivity. }
  split; [exact Hc|]. split; [exact Hd|]. split.
  - intros r [H1 H2]. apply Hc in H1. apply Hd in H2.
    destruct H1 as [_ H1], H2 as [_ H2]. rewrite H1 in H2. discriminate.
  - split; intros H r Hr.
    + destruct (H r Hr) as [H'|H']; [apply Hc in H' | apply Hd in H']; tauto.
    + destruct (H r Hr); [left; apply Hc | right; apply Hd]; tauto.
Qed.

(* ================================================================== *)
(** * The z-score detector *)

Lemma sum_squares_nonneg (m : R) (a : list R) :
  0 <= series_sum (map (fun x => Rsqr (x - m)) a).
Proof.
  induction a as [|x a IH]; simpl; [lra|].
  pose proof (Rle_0_sqr (x - m)). lra.
Qed.


Lemma population_variance_nonneg (a : list R) : 0 <= population_variance a.
Proof.
  unfold population_variance, sum_sq_dev.
  destruct a as [|x a].
  - simpl. rewrite Rdiv_0_l. lra.
  - apply Rmult_le_pos; [apply sum_squares_nonneg|].
    apply Rlt_le, Rinv_0_lt_compat, lt_0_INR. simpl. lia.
Qed.


Lemma population_variance_short (a : list R) :
  (List.length a < 2)%nat -> population_variance a = 0.
Proof.
  destruct a as [|x [|y a]]; simpl; intros H; try lia.
  - unfold population_variance, sum_sq_dev. simpl. apply Rdiv_0_l.
  - unfold population_variance, sum_sq_dev, Rmean. simpl.
    replace (x - (x + 0) / 1) with 0 by field.
    rewrite Rsqr_0. field.
Qed.

Lemma detect_zscore_filter (d : frame) :
  _detect_zscore_anomalies (dashboard_of d)
  = filter (fun r => zscore_flag (map amount d) (amount r)) d.
Proof.
  unfold _detect_zscore_anomalies, zscore. cbn [data dashboard_of].
  rewrite !map_map. apply boolean_mask_map.
Qed.

Lemma filter_nil_ext (A : Type) (p : A -> bool) (l : list A) :
  (forall x, In x l -> p x = false) -> filter p l = [].
Proof.
  induction l as [|x l IH]; simpl; intros H; [reflexivity|].
  rewrite (H x) by tauto. apply IH. intros; apply H; tauto.
Qed.


Lemma zscore_flag_regular (a : list R) (x : R) :
  population_variance a <> 0 ->
  zscore_flag a x = Rltb 3 (Rabs (population_zscore a x)).
Proof.
  intros Hv.
  destruct a as [|y a].
  { exfalso. apply Hv. apply population_variance_short. simpl. lia. }
  unfold zscore_flag, np_std. rewrite series_mean_fin.
  fold (population_variance (y :: a)).
  cbn [fsub]. rewrite fdiv_fin; [reflexivity|].
  pose proof (population_variance_nonneg (y :: a)) as Hpos.
  intros Hs. apply sqrt_eq_0 in Hs; [contradiction | assumption].
Qed.


(** Against a positive variance, the z-score exceeds 3 in absolute value
    exactly when the squared deviation exceeds nine times the variance. *)
Lemma zscore_exceeds_3 (v y : R) :
  0 < v -> (3 < Rabs (y / sqrt v) <-> 9 * v < y * y).
Proof.
  intros Hv.
  pose proof (sqrt_lt_R0 v Hv) as Hs.
  pose proof (sqrt_sqrt v (Rlt_le _ _ Hv)) as Hss.
  set (s := sqrt v) in *.
  assert (Habs : Rabs (y / s) = Rabs y / s).
  { unfold Rdiv. rewrite Rabs_mult, Rabs_inv, (Rabs_pos_eq s) by lra.
    reflexivity. }
  rewrite Habs.
  assert (Hy : Rabs y * Rabs y = y * y).
  { unfold Rabs. destruct (Rcase_abs y); ring. }
  pose proof (Rabs_pos y) as Hy0.
  split; intros H.
  - assert (H3 : 3 * s < Rabs y).
    { apply (Rmult_lt_compat_r s) in H; [|exact Hs].
      unfold Rdiv in H. rewrite Rmult_assoc, Rinv_l in H by lra. lra. }
    nra.
  - apply (Rmult_lt_reg_r s); [exact Hs|].
    unfold Rdiv. rewrite Rmult_assoc, Rinv_l by lra.
    nra.
Qed.


(** The test of the z-score method on a series of known mean and
    variance. *)
Lemma population_zscore_test (a : list R) (m v x : R) :
  Rmean a = m -> population_variance a = v -> 0 < v ->
  Rltb 3 (Rabs (population_zscore a x)) = Rltb (9 * v) ((x - m) * (x - m)).
Proof.
  intros Hm Hv Hpos. unfold population_zscore. rewrite Hm, Hv.
  pose proof (zscore_exceeds_3 v (x - m) Hpos) as H.
  destruct (Rltb (9 * v) ((x - m) * (x - m))) eqn:E.
  - apply Rltb_true. apply Rltb_true in E. apply H. exact E.
  - apply Rltb_false. apply Rltb_false in E.
    apply Rnot_lt_le. intros C. apply H in C. lra.
Qed.



(* ================================================================== *)
(** * Grouping by month *)

Section Grouping.

Local Open Scope Z_scope.

Lemma PeriodM_eqb_eq (a b : PeriodM) : PeriodM_eqb a b = true <-> a = b.
Proof.
  destruct a as [y m], b as [y' m']. unfold PeriodM_eqb. simpl.
  rewrite andb_true_iff, !Z.eqb_eq. split.
  - intros [-> ->]. reflexivity.
  - intros [= -> ->]. split; reflexivity.
Qed.

Lemma PeriodM_eqb_refl (a : PeriodM) : PeriodM_eqb a a = true.
Proof. apply PeriodM_eqb_eq. reflexivity. Qed.

Lemma PeriodM_eqb_sym (a b : PeriodM) : PeriodM_eqb a b = PeriodM_eqb b a.
Proof.
  unfold PeriodM_eqb.
  rewrite (Z.eqb_sym (pm_year a)), (Z.eqb_sym (pm_month a)). reflexivity.
Qed.

Lemma PeriodM_ltb_spec (a b : PeriodM) :
  PeriodM_ltb a b = true
  <-> pm_year a < pm_year b
      \/ (pm_year a = pm_year b /\ pm_month a < pm_month b).
Proof.
  unfold PeriodM_ltb.
  rewrite orb_true_iff, andb_true_iff, !Z.ltb_lt, Z.eqb_eq. reflexivity.
Qed.

Lemma PeriodM_ltb_trans (a b c : PeriodM) :
  PeriodM_ltb a b = true -> PeriodM_ltb b c = true -> PeriodM_ltb a c = true.
Proof. rewrite !PeriodM_ltb_spec. lia. Qed.

Lemma PeriodM_ltb_neq (a b : PeriodM) :
  PeriodM_ltb a b = true -> PeriodM_eqb a b = false.
Proof.
  rewrite PeriodM_ltb_spec. intros H.
  destruct (PeriodM_eqb a b) eqn:E; [|reflexivity].
  apply PeriodM_eqb_eq in E. subst b. lia.
Qed.

Lemma PeriodM_trichotomy (a b : PeriodM) :
  PeriodM_eqb a b = false -> PeriodM_ltb a b = false ->
  PeriodM_ltb b a = true.
Proof.
  intros He Hl. apply PeriodM_ltb_spec.
  destruct (PeriodM_ltb_spec a b) as [_ Hl'].
  destruct a as [y m], b as [y' m']. simpl in *.
  assert (Hne : ~ (y = y' /\ m = m')).
  { intros [-> ->]. rewrite PeriodM_eqb_refl in He. discriminate. }
  assert (Hnl : ~ (y < y' \/ y = y' /\ m < m')).
  { intros H. rewrite (Hl' H) in Hl. discriminate. }
  lia.
Qed.

End Grouping.

Lemma keys_ascending_lookup_none (k k' : PeriodM) (s : R)
    (g : list (PeriodM * R)) :
  keys_ascending ((k', s) :: g) -> PeriodM_ltb k k' = true ->
  group_lookup k ((k', s) :: g) = None.
Proof.
  unfold keys_ascending. simpl. intros Hs Hlt.
  apply StronglySorted_inv in Hs. destruct Hs as [_ Hall].
  rewrite (PeriodM_ltb_neq _ _ Hlt).
  induction g as [|[k'' s''] g IH]; simpl; [reflexivity|].
  inversion Hall as [|? ? Hk Hall']; subst.
  rewrite (PeriodM_ltb_neq _ _ (PeriodM_ltb_trans _ _ _ Hlt Hk)).
  apply IH. assumption.
Qed.

Lemma group_add_keys (k : PeriodM) (x : R) (g : list (PeriodM * R))
    (k0 : PeriodM) :
  In k0 (map fst (group_add k x g)) -> k0 = k \/ In k0 (map fst g).
Proof.
  induction g as [|[k' s] g IH]; simpl.
  - intuition congruence.
  - destruct (PeriodM_eqb k k'); [simpl; tauto|].
    destruct (PeriodM_ltb k k'); simpl; [intuition congruence|].
    intros [H|H]; [tauto|]. destruct (IH H); tauto.
Qed.

Lemma group_add_ascending (k : PeriodM) (x : R) (g : list (PeriodM * R)) :
  keys_ascending g -> keys_ascending (group_add k x g).
Proof.
  unfold keys_ascending.
  induction g as [|[k' s] g IH]; simpl; intros Hs.
  - repeat constructor.
  - destruct (PeriodM_eqb k k') eqn:He; [exact Hs|].
    destruct (PeriodM_ltb k k') eqn:Hl.
    + simpl. constructor; [exact Hs|].
      apply StronglySorted_inv in Hs. destruct Hs as [_ Hall].
      constructor; [exact Hl|].
      rewrite Forall_forall in *. intros k0 Hk0.
      eapply PeriodM_ltb_trans; [exact Hl | apply Hall; exact Hk0].
    + apply StronglySorted_inv in Hs. destruct Hs as [Hs Hall].
      simpl. constructor; [apply IH; exact Hs|].
      rewrite Forall_forall in *. intros k0 Hk0.
      apply group_add_keys in Hk0. destruct Hk0 as [->|Hk0].
      * apply PeriodM_trichotomy; assumption.
      * apply Hall; exact Hk0.
Qed.

Lemma group_add_lookup (k : PeriodM) (x : R) (g : list (PeriodM * R))
    (k0 : PeriodM) :
  keys_ascending g ->
  group_lookup k0 (group_add k x g)
  = if PeriodM_eqb k0 k
    then match group_lookup k0 g with
         | Some s => Some (s + x)
         | None => Some x
         end
    else group_lookup k0 g.
Proof.
  induction g as [|[k' s] g IH]; intros Hs.
  - simpl. destruct (PeriodM_eqb k0 k); reflexivity.
  - cbn [group_add].
    destruct (PeriodM_eqb k k') eqn:He.
    + apply PeriodM_eqb_eq in He. subst k'. simpl.
      destruct (PeriodM_eqb k0 k); reflexivity.
    + destruct (PeriodM_ltb k k') eqn:Hl.
      * destruct (PeriodM_eqb k0 k) eqn:E0.
        -- apply PeriodM_eqb_eq in E0. subst k0.
           rewrite (keys_ascending_lookup_none _ _ _ _ Hs Hl).
           simpl. rewrite PeriodM_eqb_refl. reflexivity.
        -- cbn [group_lookup]. rewrite E0. reflexivity.
      * pose proof Hs as Hs'. unfold keys_ascending in Hs'. simpl in Hs'.
        apply StronglySorted_inv in Hs'. destruct Hs' as [Hs' _].
        cbn [group_lookup]. rewrite (IH Hs').
        destruct (PeriodM_eqb k0 k') eqn:E1; [|reflexivity].
        apply PeriodM_eqb_eq in E1. subst k'.
        rewrite PeriodM_eqb_sym, He. reflexivity.
Qed.

Lemma fold_group_add (key : Row -> PeriodM) (rows : frame)
    (g : list (PeriodM * R)) (k : PeriodM) :
  keys_ascending g ->
  keys_ascending
    (fold_left (fun g r => group_add (key r) (amount r) g) rows g)
  /\ group_lookup k
       (fold_left (fun g r => group_add (key r) (amount r) g) rows g)
     = match group_lookup k g, key_total key k rows with
       | Some s, Some t => Some (s + t)
       | Some s, None => Some s
       | None, t => t
       end.
Proof.
  revert g.
  induction rows as [|r rows IH]; intros g Hs.
  - simpl. split; [exact Hs|]. unfold key_total. simpl.
    destruct (group_lookup k g); reflexivity.
  - cbn [fold_left].
    destruct (IH _ (group_add_ascending (key r) (amount r) g Hs)) as [Ha Hl].
    split; [exact Ha|]. rewrite Hl. clear Ha Hl IH.
    rewrite (group_add_lookup _ _ _ _ Hs).
    unfold key_total. cbn [filter].
    rewrite (PeriodM_eqb_sym (key r) k).
    destruct (PeriodM_eqb k (key r)).
    + cbn [group_total map series_sum].
      destruct (group_lookup k g) as [s|];
        destruct (filter (fun r0 => PeriodM_eqb (key r0) k) rows) as [|r1 rs];
        cbn [group_total map]; unfold series_sum; cbn [fold_right];
        f_equal; lra.
    + reflexivity.
Qed.

Lemma groupby_sum_spec (key : Row -> PeriodM) (rows : frame) (k : PeriodM) :
  keys_ascending (groupby_sum key rows)
  /\ group_lookup k (groupby_sum key rows) = key_total key k rows.
Proof.
  unfold groupby_sum.
  destruct (fold_group_add key rows [] k) as [Ha Hl].
  { constructor. }
  split; [exact Ha|]. rewrite Hl. simpl.
  destruct (key_total key k rows); reflexivity.
Qed.

Lemma preprocess_data_derived
    (parse_datetime : string -> option Timestamp)
    (raw raw' : raw_frame) (d : frame) :
  _preprocess_data parse_datetime raw = Some (raw', d) -> Forall derived d.
Proof.
  unfold _preprocess_data.
  destruct (preprocess_rows parse_datetime raw) as [rows|] eqn:Hrows;
    [|discriminate].
  intros [= _ <-].
  apply Forall_derived_drop_duplicates.
  eapply preprocess_rows_derived; eassumption.
Qed.

Lemma january_rows_preprocessed :
  _preprocess_data IsoDate.parse two_januaries_raw
  = Some (map as_raw [january_2023; january_2024],
          [january_2023; january_2024]).
Proof.
  unfold _preprocess_data.
  replace (preprocess_rows IsoDate.parse two_januaries_raw)
    with (Some [january_2023; january_2024]) by reflexivity.
  rewrite drop_duplicates_fixed; [reflexivity|].
  repeat constructor; simpl; intuition discriminate.
Qed.

Lemma key_total_month_column (rows : frame) (y m : Z) :
  Forall derived rows ->
  key_total month (mkPeriodM y m) rows = group_total (filter (in_month y m) rows).
Proof.
  intros Hd. unfold key_total. f_equal.
  apply filter_ext_in. intros r Hr.
  rewrite Forall_forall in Hd. destruct (Hd r Hr) as (-> & _).
  reflexivity.
Qed.

Lemma derived_filter (p : Row -> bool) (rows : frame) :
  Forall derived rows -> Forall derived (filter p rows).
Proof.
  rewrite !Forall_forall. intros H r Hr.
  apply filter_In in Hr. apply H, Hr.
Qed.

(** C4, as stated, does not hold: a record of January 2023 and one of
    January 2024 are in two groups, and the average monthly income of 100
    and 300 is 200. *)
Lemma monthly_grouping_counterexample :
  _preprocess_data IsoDate.parse two_januaries_raw
  = Some (map as_raw [january_2023; january_2024],
          [january_2023; january_2024])
  /\ let self := dashboard_of [january_2023; january_2024] in
     month_no (date january_2023) = month_no (date january_2024)
     /\ month january_2023 <> month january_2024
     /\ monthly_cash_flow self
        = [(mkPeriodM 2023 1, 100); (mkPeriodM 2024 1, 300)]
     /\ groupby_sum month (credits self)
        = [(mkPeriodM 2023 1, 100); (mkPeriodM 2024 1, 300)]
     /\ avg_monthly_income (calculate_advanced_metrics self) = Fin 200.
Proof.
  split; [exact january_rows_preprocessed|].
  cbv zeta.
  assert (Hg : groupby_sum month
                 (credits (dashboard_of [january_2023; january_2024]))
               = [(mkPeriodM 2023 1, 100); (mkPeriodM 2024 1, 300)])
    by reflexivity.
  split; [reflexivity|]. split; [discriminate|].
  split; [reflexivity|]. split; [exact Hg|].
  unfold calculate_advanced_metrics. cbn [avg_monthly_income].
  rewrite Hg. unfold series_mean. simpl.
  decide_reals. f_equal. lra.
Qed.

(** C4, amended.  The monthly groupings bucket by year and month: the
    entry of the month [m] of the year [y] in [monthly_cash_flow] is the sum
    of the amounts of the records dated in that month of that year, and so
    it is in the grouped Credit and Debit sums; each year and month has one
    entry, in ascending order.  Two records are in the same group exactly
    when their dates agree on the year and on the month. *)
Theorem monthly_grouping
    (parse_datetime : string -> option Timestamp)
    (raw raw' : raw_frame) (d : frame) :
  _preprocess_data parse_datetime raw = Some (raw', d) ->
  let self := dashboard_of d in
  (forall y m : Z,
      group_lookup (mkPeriodM y m) (monthly_cash_flow self)
      = group_total (filter (in_month y m) d)
      /\ group_lookup (mkPeriodM y m) (groupby_sum month (credits self))
         = group_total (filter (in_month y m) (credits self))
      /\ group_lookup (mkPeriodM y m) (groupby_sum month (debits self))
         = group_total (filter (in_month y m) (debits self)))
  /\ keys_ascending (monthly_cash_flow self)
  /\ keys_ascending (groupby_sum month (credits self))
  /\ keys_ascending (groupby_sum month (debits self))
  /\ (forall r1 r2 : Row,
         In r1 d -> In r2 d ->
         (month r1 = month r2
          <-> year (date r1) = year (date r2)
              /\ month_no (date r1) = month_no (date r2))).
Proof.
  intros Hpre self.
  pose proof (preprocess_data_derived _ _ _ _ Hpre) as Hd.
  assert (Hc : Forall derived (credits self)).
  { unfold self. rewrite credits_filter. apply derived_filter, Hd. }
  assert (Hb : Forall derived (debits self)).
  { unfold self. rewrite debits_filter. apply derived_filter, Hd. }
  split; [|split; [|split; [|split]]].
  - intros y m. split; [|split].
    + unfold monthly_cash_flow. cbn [data self dashboard_of].
      rewrite (proj2 (groupby_sum_spec _ d (mkPeriodM y m))). reflexivity.
    + rewrite (proj2 (groupby_sum_spec _ _ (mkPeriodM y m))).
      apply key_total_month_column, Hc.
    + rewrite (proj2 (groupby_sum_spec _ _ (mkPeriodM y m))).
      apply key_total_month_column, Hb.
  - apply (groupby_sum_spec _ _ (mkPeriodM 0 0)).
  - apply (groupby_sum_spec _ _ (mkPeriodM 0 0)).
  - apply (groupby_sum_spec _ _ (mkPeriodM 0 0)).
  - intros r1 r2 H1 H2. rewrite Forall_forall in Hd.
    destruct (Hd r1 H1) as (-> & _). destruct (Hd r2 H2) as (-> & _).
    unfold to_period_M. split.
    + intros [= -> ->]. split; reflexivity.
    + intros [-> ->]. reflexivity.
Qed.

Lemma monthly_grouping_witness :
  let d := [january_2023; january_2024] in
  let self := dashboard_of d in
  (forall y m : Z,
      group_lookup (mkPeriodM y m) (monthly_cash_flow self)
      = group_total (filter (in_month y m) d)
      /\ group_lookup (mkPeriodM y m) (groupby_sum month (credits self))
         = group_total (filter (in_month y m) (credits self))
      /\ group_lookup (mkPeriodM y m) (groupby_sum month (debits self))
         = group_total (filter (in_month y m) (debits self)))
  /\ keys_ascending (monthly_cash_flow self)
  /\ keys_ascending (groupby_sum month (credits self))
  /\ keys_ascending (groupby_sum month (debits self))
  /\ (forall r1 r2 : Row,
         In r1 d -> In r2 d ->
         (month r1 = month r2
          <-> year (date r1) = year (date r2)
              /\ month_no (date r1) = month_no (date r2))).
Proof.
  apply (monthly_grouping IsoDate.parse two_januaries_raw
           (map as_raw [january_2023; january_2024])).
  exact january_rows_preprocessed.
Defined.

(* ================================================================== *)
(** * Records of another direction *)

Lemma detect_iqr_filter (d : frame) :
  _detect_iqr_anomalies (dashboard_of d)
  = filter (fun r => iqr_flag (map amount d) (amount r)) d.
Proof.
  unfold _detect_iqr_anomalies. cbn [data dashboard_of].
  apply boolean_mask_map.
Qed.

Lemma filter_drops (p : Row -> bool) (l1 l2 : frame) (r : Row) :
  p r = false -> filter p (l1 ++ r :: l2) = filter p (l1 ++ l2).
Proof.
  intros H. rewrite !filter_app. cbn [filter]. rewrite H. reflexivity.
Qed.

Lemma group_total_middle (l1 l2 : frame) (r : Row) :
  group_total (l1 ++ r :: l2)
  = Some (amount r + series_sum (map amount (l1 ++ l2))).
Proof.
  assert (H : series_sum (map amount (l1 ++ r :: l2))
              = amount r + series_sum (map amount (l1 ++ l2))).
  { rewrite !map_app, !series_sum_app. simpl. lra. }
  rewrite <- H. destruct l1; reflexivity.
Qed.

(** C10.  A record whose direction is neither "Cr" nor "Db" adds nothing
    to total_income, total_expenses and the two monthly averages: they are
    what they are without the record.  Its amount is part of the entry of
    its month in the monthly sums of cash_flow_volatility, and the three
    detectors read it: the statistics of the z-score and the
    interquartile-range detectors range over its amount too, and the record
    itself is returned by each detector whose test it meets. *)
Theorem record_of_other_direction (l1 l2 : frame) (r : Row) :
  DrCr r <> "Cr"%string -> DrCr r <> "Db"%string ->
  let d := l1 ++ r :: l2 in
  let self := dashboard_of d in
  let m := calculate_advanced_metrics self in
  let m' := calculate_advanced_metrics (dashboard_of (l1 ++ l2)) in
  (total_income m = total_income m'
   /\ total_expenses m = total_expenses m'
   /\ avg_monthly_income m = avg_monthly_income m'
   /\ avg_monthly_expenses m = avg_monthly_expenses m')
  /\ group_lookup (to_period_M (date r)) (monthly_cash_flow self)
     = Some (amount r
             + series_sum
                 (map amount
                    (filter (in_month (year (date r)) (month_no (date r)))
                            (l1 ++ l2))))
  /\ (In r (_detect_zscore_anomalies self)
      <-> zscore_flag (map amount l1 ++ amount r :: map amount l2) (amount r)
          = true)
  /\ (In r (_detect_iqr_anomalies self)
      <-> iqr_flag (map amount l1 ++ amount r :: map amount l2) (amount r)
          = true)
  /\ (In r (late_night_transactions (_detect_time_based_anomalies self))
      <-> (hour (date r) < 6 \/ 22 < hour (date r))%Z)
  /\ (In r (weekend_transactions (_detect_time_based_anomalies self))
      <-> day_name (date r) = "Saturday"%string
          \/ day_name (date r) = "Sunday"%string).
Proof.
  intros Hcr Hdb d self m m'.
  assert (Hin : In r d) by (apply in_elt).
  assert (Hamounts : map amount d
                     = map amount l1 ++ amount r :: map amount l2).
  { unfold d. rewrite map_app. reflexivity. }
  assert (Hc : credits self = credits (dashboard_of (l1 ++ l2))).
  { unfold self, d. rewrite !credits_filter. apply filter_drops.
    apply String.eqb_neq. exact Hcr. }
  assert (Hb : debits self = debits (dashboard_of (l1 ++ l2))).
  { unfold self, d. rewrite !debits_filter. apply filter_drops.
    apply String.eqb_neq. exact Hdb. }
  split; [|split; [|split; [|split; [|split]]]].
  - unfold m, m', calculate_advanced_metrics.
    cbn [total_income total_expenses avg_monthly_income avg_monthly_expenses].
    rewrite Hc, Hb. repeat split.
  - unfold monthly_cash_flow. cbn [data self dashboard_of].
    rewrite (proj2 (groupby_sum_spec _ d (to_period_M (date r)))).
    unfold key_total.
    change (fun r0 : Row =>
              PeriodM_eqb (to_period_M (date r0)) (to_period_M (date r)))
      with (in_month (year (date r)) (month_no (date r))).
    unfold d. rewrite !filter_app. cbn [filter].
    replace (in_month (year (date r)) (month_no (date r)) r) with true.
    + rewrite group_total_middle. reflexivity.
    + unfold in_month. rewrite !Z.eqb_refl. reflexivity.
  - unfold self. rewrite detect_zscore_filter, filter_In, Hamounts. tauto.
  - unfold self. rewrite detect_iqr_filter, filter_In, Hamounts. tauto.
  - unfold _detect_time_based_anomalies. cbn [late_night_transactions].
    cbn [data self dashboard_of].
    rewrite boolean_mask_map, filter_In, orb_true_iff, Z.gtb_ltb, !Z.ltb_lt.
    tauto.
  - unfold _detect_time_based_anomalies. cbn [weekend_transactions].
    cbn [data self dashboard_of].
    rewrite boolean_mask_map, filter_In. unfold isin. cbn [existsb].
    rewrite !orb_true_iff, !String.eqb_eq.
    intuition discriminate.
Qed.

Lemma record_of_other_direction_witness :
  let d := example_rows ++ [other_direction_row] in
  total_income (calculate_advanced_metrics (dashboard_of d))
  = total_income (calculate_advanced_metrics (dashboard_of (example_rows ++ [])))
  /\ group_lookup (mkPeriodM 2024 2) (monthly_cash_flow (dashboard_of d))
     = Some (50 + 0).
Proof.
  destruct (record_of_other_direction example_rows [] other_direction_row)
    as ((Hi & _) & Hg & _).
  - discriminate.
  - discriminate.
  - split; [exact Hi | exact Hg].
Defined.

(* ================================================================== *)
(** * The example scenario of the specification, end to end *)

Lemma example_statistics :
  Rmean (map amount example_rows) = 1730
  /\ population_variance (map amount example_rows) = 16039400 / 3.
Proof.
  assert (Hm : Rmean (map amount example_rows) = 1730).
  { unfold Rmean. simpl. lra. }
  split; [exact Hm|].
  unfold population_variance, sum_sq_dev. rewrite Hm.
  unfold Rsqr. simpl. lra.
Qed.

Lemma example_no_zscore_anomalies :
  _detect_zscore_anomalies (dashboard_of example_rows) = [].
Proof.
  destruct example_statistics as [Hm Hv].
  rewrite detect_zscore_filter. apply filter_nil_ext. intros r Hr.
  rewrite zscore_flag_regular by (rewrite Hv; lra).
  rewrite (population_zscore_test _ _ _ _ Hm Hv) by lra.
  apply Rltb_false.
  destruct Hr as [<-|[<-|[<-|[]]]]; cbn [amount]; lra.
Qed.

(** The three records give the critical overspending message and one
    late-night transaction, the one of 23:30. *)
Lemma example_recommendations :
  late_night_transactions (time_anomalies (anomalies_of (analyse example_rows)))
  = [nth 1 example_rows duplicate_row]
  /\ recommendations_of (analyse example_rows)
     = [CriticalOverspending; LateNightTransactions 1].
Proof.
  assert (Ht : _detect_time_based_anomalies (dashboard_of example_rows)
               = mkTimeAnomalies [nth 1 example_rows duplicate_row] [])
    by reflexivity.
  unfold analyse, detect_anomalies_advanced.
  cbn [recommendations_of anomalies_of time_anomalies].
  rewrite Ht. split; [reflexivity|].
  rewrite example_metrics, example_no_zscore_anomalies.
  unfold generate_advanced_recommendations.
  cbn [savings_rate cash_flow_volatility z_score_anomalies time_anomalies
       late_night_transactions weekend_transactions List.length Nat.ltb
       Nat.leb fltb fgtb].
  replace (Rltb (-4990) 0) with true by (symmetry; apply Rltb_true; lra).
  reflexivity.
Qed.

(* ================================================================== *)
(** * Further properties of the preprocessor *)

Section PreprocessorProperties.

Variable parse_datetime : string -> option Timestamp.

Lemma preprocess_rows_none (data : raw_frame) :
  preprocess_rows parse_datetime data = None
  <-> exists r, In r data /\ to_datetime parse_datetime (raw_date r) = None.
Proof.
  induction data as [|r data IH]; cbn [preprocess_rows].
  - split; [discriminate | intros (r & [] & _)].
  - unfold preprocess_row at 1.
    destruct (to_datetime parse_datetime (raw_date r)) as [t|] eqn:Ht.
    + destruct (preprocess_rows parse_datetime data) as [rows|].
      * split; [discriminate|].
        intros (r0 & [<-|Hin] & H0); [congruence|].
        destruct IH as [_ IH]. discriminate IH. exists r0. tauto.
      * split; [|reflexivity]. intros _.
        destruct IH as [IH _]. destruct (IH eq_refl) as (r0 & Hin & H0).
        exists r0. simpl. tauto.
    + split; [|reflexivity]. intros _. exists r. simpl. tauto.
Qed.

Lemma preprocess_rows_In (data : raw_frame) (rows : frame) :
  preprocess_rows parse_datetime data = Some rows ->
  forall r, In r rows
            <-> exists r0, In r0 data
                           /\ preprocess_row parse_datetime r0 = Some r.
Proof.
  revert rows.
  induction data as [|r0 data IH]; cbn [preprocess_rows]; intros rows.
  - intros [= <-] r. split; [intros [] | intros (? & [] & _)].
  - destruct (preprocess_row parse_datetime r0) as [r1|] eqn:H1;
      [|discriminate].
    destruct (preprocess_rows parse_datetime data) as [rows'|];
      [|discriminate].
    intros [= <-] r. cbn [In]. rewrite (IH rows' eq_refl r). split.
    + intros [<-|(x & Hx & Hp)]; [exists r0 | exists x]; tauto.
    + intros (x & [<-|Hx] & Hp); [left; congruence | right; exists x; tauto].
Qed.

Lemma preprocess_rows_app (a b : raw_frame) :
  preprocess_rows parse_datetime (a ++ b)
  = match preprocess_rows parse_datetime a,
          preprocess_rows parse_datetime b with
    | Some ra, Some rb => Some (ra ++ rb)
    | _, _ => None
    end.
Proof.
  induction a as [|r a IH]; cbn [app preprocess_rows].
  - destruct (preprocess_rows parse_datetime b); reflexivity.
  - destruct (preprocess_row parse_datetime r); [|reflexivity].
    rewrite IH.
    destruct (preprocess_rows parse_datetime a);
      destruct (preprocess_rows parse_datetime b); reflexivity.
Qed.

End PreprocessorProperties.

Lemma drop_duplicates_from_seen (seen rows : frame) :
  (forall x, In x rows -> In x seen) -> drop_duplicates_from seen rows = [].
Proof.
  induction rows as [|r rows IH]; cbn [drop_duplicates_from]; intros H;
    [reflexivity|].
  destruct (in_dec Row_eq_dec r seen) as [_|Hn].
  - apply IH. intros x Hx. apply H. simpl. tauto.
  - exfalso. apply Hn, H. simpl. tauto.
Qed.

Lemma drop_duplicates_from_app (seen rows more : frame) :
  (forall x, In x more -> In x rows \/ In x seen) ->
  drop_duplicates_from seen (rows ++ more) = drop_duplicates_from seen rows.
Proof.
  revert seen.
  induction rows as [|r rows IH]; intros seen H; cbn [app drop_duplicates_from].
  - apply drop_duplicates_from_seen. intros x Hx.
    destruct (H x Hx) as [[]|Hs]. exact Hs.
  - destruct (in_dec Row_eq_dec r seen) as [Hin|Hout].
    + apply IH. intros x Hx. destruct (H x Hx) as [[<-|Hr]|Hs]; tauto.
    + f_equal. apply IH. intros x Hx.
      destruct (H x Hx) as [[<-|Hr]|Hs]; simpl; tauto.
Qed.

(** X1.  The preprocessor raises exactly when some cell of the date column
    does not parse. *)
Theorem preprocess_fails_iff
    (parse_datetime : string -> option Timestamp) (data : raw_frame) :
  _preprocess_data parse_datetime data = None
  <-> exists r, In r data /\ to_datetime parse_datetime (raw_date r) = None.
Proof.
  rewrite <- preprocess_rows_none. unfold _preprocess_data.
  destruct (preprocess_rows parse_datetime data); split;
    intros H; try discriminate; reflexivity.
Qed.

(** X2.  The frame the preprocessor returns has no two equal rows, holds
    exactly the preprocessed images of the input rows, with derived columns
    that are functions of the date, and it has at most as many rows as the
    input. *)
Theorem preprocess_result
    (parse_datetime : string -> option Timestamp)
    (raw raw' : raw_frame) (out : frame) :
  _preprocess_data parse_datetime raw = Some (raw', out) ->
  NoDup out
  /\ Forall derived out
  /\ (forall r, In r out
                <-> exists r0, In r0 raw
                               /\ preprocess_row parse_datetime r0 = Some r)
  /\ (List.length out <= List.length raw)%nat.
Proof.
  intros H. pose proof (preprocess_data_derived _ _ _ _ H) as Hd.
  revert H. unfold _preprocess_data.
  destruct (preprocess_rows parse_datetime raw) as [rows|] eqn:Hrows;
    [|discriminate].
  intros [= _ <-].
  split; [apply drop_duplicates_NoDup|]. split; [exact Hd|]. split.
  - intros r. rewrite drop_duplicates_In.
    apply preprocess_rows_In. exact Hrows.
  - rewrite <- (preprocess_rows_length _ _ _ Hrows).
    apply NoDup_incl_length; [apply drop_duplicates_NoDup|].
    intros x Hx. apply drop_duplicates_In. exact Hx.
Qed.

Lemma preprocess_result_witness :
  NoDup [duplicate_row]
  /\ Forall derived [duplicate_row]
  /\ (forall r, In r [duplicate_row]
                <-> exists r0, In r0 duplicate_raw
                               /\ preprocess_row IsoDate.parse r0 = Some r)
  /\ (List.length [duplicate_row] <= List.length duplicate_raw)%nat.
Proof.
  apply (preprocess_result IsoDate.parse duplicate_raw
           (map as_raw [duplicate_row; duplicate_row])).
  exact duplicate_preprocessed.
Defined.

(** X3.  Input rows that repeat rows already in the input change nothing
    in the returned frame: the preprocessor returns the same frame for the
    input with and without them. *)
Theorem preprocess_ignores_repeats
    (parse_datetime : string -> option Timestamp)
    (raw more raw' : raw_frame) (out : frame) :
  (forall r, In r more -> In r raw) ->
  _preprocess_data parse_datetime raw = Some (raw', out) ->
  exists raw'' : raw_frame,
    _preprocess_data parse_datetime (raw ++ more) = Some (raw'', out).
Proof.
  intros Hmore. unfold _preprocess_data. rewrite preprocess_rows_app.
  destruct (preprocess_rows parse_datetime raw) as [rows|] eqn:Hrows;
    [|discriminate].
  intros [= _ <-].
  destruct (preprocess_rows parse_datetime more) as [rows'|] eqn:Hrows'.
  - exists (map as_raw (rows ++ rows')). unfold drop_duplicates.
    rewrite drop_duplicates_from_app; [reflexivity|]. intros x Hx. left.
    apply (preprocess_rows_In _ _ _ Hrows' x) in Hx.
    destruct Hx as (r0 & Hr0 & Hp).
    apply (preprocess_rows_In _ _ _ Hrows x). exists r0.
    split; [apply Hmore; exact Hr0 | exact Hp].
  - exfalso. apply preprocess_rows_none in Hrows'.
    destruct Hrows' as (r & Hr & Hnone).
    assert (Hfail : preprocess_rows parse_datetime raw = None).
    { apply preprocess_rows_none. exists r. split; [apply Hmore, Hr | exact Hnone]. }
    congruence.
Qed.

Lemma preprocess_ignores_repeats_witness :
  exists raw'' : raw_frame,
    _preprocess_data IsoDate.parse (example_raw ++ example_raw)
    = Some (raw'', example_rows).
Proof.
  apply (preprocess_ignores_repeats IsoDate.parse example_raw example_raw
           (map as_raw example_rows)).
  - intros r Hr. exact Hr.
  - exact example_preprocessed.
Defined.

(* ================================================================== *)
(** * Further properties of the recommendation rules *)

Lemma advisory_fires (metrics : Metrics) (anomalies : Anomalies)
    (m : Advisory) :
  In m (generate_advanced_recommendations metrics anomalies)
  <-> match m with
      | CriticalOverspending => fltb (savings_rate metrics) (Fin 0) = true
      | LowSavingsRate =>
          fltb (savings_rate metrics) (Fin 0) = false
          /\ fltb (savings_rate metrics) (Fin 10) = true
      | HighVolatility => fgtb (cash_flow_volatility metrics) (Fin 50) = true
      | UnusualTransactions n =>
          n = List.length (z_score_anomalies anomalies) /\ (0 < n)%nat
      | LateNightTransactions n =>
          n = List.length (late_night_transactions (time_anomalies anomalies))
          /\ (0 < n)%nat
      | WeekendTransactions n =>
          n = List.length (weekend_transactions (time_anomalies anomalies))
          /\ (0 < n)%nat
      end.
Proof.
  unfold generate_advanced_recommendations.
  destruct (fltb (savings_rate metrics) (Fin 0));
    [|destruct (fltb (savings_rate metrics) (Fin 10))];
    destruct (fgtb (cash_flow_volatility metrics) (Fin 50));
    destruct (Nat.ltb_spec 0 (List.length (z_score_anomalies anomalies)));
    destruct (Nat.ltb_spec 0
                (List.length
                   (late_night_transactions (time_anomalies anomalies))));
    destruct (Nat.ltb_spec 0
                (List.length
                   (weekend_transactions (time_anomalies anomalies))));
    destruct m; cbn [app In];
    (split;
     [ intros Hm;
       repeat match goal with
              | H : _ \/ _ |- _ => destruct H
              end;
       try discriminate; try contradiction;
       repeat match goal with
              | H : _ _ = _ _ |- _ => injection H as <-
              end;
       auto
     | match goal with
       | |- _ /\ _ -> _ => intros [Hm Hm']
       | |- _ => intros Hm
       end;
       subst; try discriminate; try lia;
       repeat first [left; reflexivity | right] ]).
Qed.

(** X4.  A message is in the list exactly when its rule fires: the
    critical message when the savings rate is below 0, the low-savings
    message when it is not below 0 but below 10, the volatility message
    when the volatility is above 50, and each of the three count messages
    when its anomaly set is not empty, with the size of the set as its
    count.  A comparison with NaN never fires.  So the list is empty
    exactly when no rule fires. *)
Theorem recommendations_fire (metrics : Metrics) (anomalies : Anomalies) :
  let recs := generate_advanced_recommendations metrics anomalies in
  (forall m : Advisory,
      In m recs
      <-> match m with
          | CriticalOverspending => fltb (savings_rate metrics) (Fin 0) = true
          | LowSavingsRate =>
              fltb (savings_rate metrics) (Fin 0) = false
              /\ fltb (savings_rate metrics) (Fin 10) = true
          | HighVolatility =>
              fgtb (cash_flow_volatility metrics) (Fin 50) = true
          | UnusualTransactions n =>
              n = List.length (z_score_anomalies anomalies) /\ (0 < n)%nat
          | LateNightTransactions n =>
              n = List.length
                    (late_night_transactions (time_anomalies anomalies))
              /\ (0 < n)%nat
          | WeekendTransactions n =>
              n = List.length
                    (weekend_transactions (time_anomalies anomalies))
              /\ (0 < n)%nat
          end)
  /\ (recs = []
      <-> fltb (savings_rate metrics) (Fin 10) = false
          /\ fgtb (cash_flow_volatility metrics) (Fin 50) = false
          /\ z_score_anomalies anomalies = []
          /\ late_night_transactions (time_anomalies anomalies) = []
          /\ weekend_transactions (time_anomalies anomalies) = []
          /\ fltb (savings_rate metrics) (Fin 0) = false).
Proof.
  split; [intros m; apply advisory_fires|].
  unfold generate_advanced_recommendations.
  destruct (fltb (savings_rate metrics) (Fin 0));
    [|destruct (fltb (savings_rate metrics) (Fin 10))];
    destruct (fgtb (cash_flow_volatility metrics) (Fin 50));
    destruct (z_score_anomalies anomalies);
    destruct (late_night_transactions (time_anomalies anomalies));
    destruct (weekend_transactions (time_anomalies anomalies));
    cbn [List.length Nat.ltb Nat.leb app];
    split; intros H; try discriminate; try reflexivity;
    try (repeat split; reflexivity);
    destruct H as (? & ? & ? & ? & ? & ?); discriminate.
Qed.

(* ================================================================== *)
(** * Further properties of the metrics *)




Lemma groupby_single_key (key : Row -> PeriodM) (k : PeriodM) (rows : frame)
    (g : list (PeriodM * R)) :
  (forall r, In r rows -> key r = k) ->
  g = [] \/ (exists s, g = [(k, s)]) ->
  (List.length
     (fold_left (fun g r => group_add (key r) (amount r) g) rows g) <= 1)%nat.
Proof.
  revert g.
  induction rows as [|r rows IH]; intros g Hk Hg; cbn [fold_left].
  - destruct Hg as [->|(s & ->)]; simpl; lia.
  - apply IH; [intros; apply Hk; simpl; tauto|].
    right. rewrite (Hk r) by (simpl; tauto).
    destruct Hg as [->|(s & ->)]; cbn [group_add].
    + eauto.
    + rewrite PeriodM_eqb_refl. eauto.
Qed.

Lemma series_std_short (a : list R) :
  (List.length a <= 1)%nat -> series_std a = NaN.
Proof.
  intros H. unfold series_std.
  apply Nat.leb_le in H. rewrite H. reflexivity.
Qed.

(** X6.  When all records are dated in one month, the cash flow
    volatility is NaN (the standard deviation of a single monthly sum is not
    defined) and the volatility message is not produced. *)
Theorem single_month_volatility (d : frame) (k : PeriodM) :
  (forall r, In r d -> to_period_M (date r) = k) ->
  cash_flow_volatility (metrics_of (analyse d)) = NaN
  /\ ~ In HighVolatility (recommendations_of (analyse d)).
Proof.
  intros Hk.
  assert (Hv : cash_flow_volatility
                 (calculate_advanced_metrics (dashboard_of d)) = NaN).
  { unfold calculate_advanced_metrics. cbn [cash_flow_volatility].
    rewrite series_std_short; [reflexivity|].
    rewrite length_map. unfold monthly_cash_flow, groupby_sum.
    cbn [data dashboard_of].
    apply (groupby_single_key _ k); [exact Hk | tauto]. }
  unfold analyse. cbn [metrics_of recommendations_of].
  split; [exact Hv|].
  rewrite advisory_fires, Hv. discriminate.
Qed.

Lemma single_month_volatility_witness :
  cash_flow_volatility (metrics_of (analyse example_rows)) = NaN
  /\ ~ In HighVolatility (recommendations_of (analyse example_rows)).
Proof.
  apply (single_month_volatility example_rows (mkPeriodM 2024 1)).
  intros r [<-|[<-|[<-|[]]]]; reflexivity.
Defined.

Lemma group_add_total (k : PeriodM) (x : R) (g : list (PeriodM * R)) :
  series_sum (map snd (group_add k x g)) = series_sum (map snd g) + x.
Proof.
  induction g as [|[k' s] g IH]; cbn [group_add].
  - simpl. lra.
  - destruct (PeriodM_eqb k k'); [simpl; lra|].
    destruct (PeriodM_ltb k k'); [simpl; lra|].
    cbn [map snd series_sum fold_right] in *.
    unfold series_sum in IH. rewrite IH. lra.
Qed.

Lemma group_add_length (k : PeriodM) (x : R) (g : list (PeriodM * R)) :
  (List.length (group_add k x g) <= S (List.length g))%nat.
Proof.
  induction g as [|[k' s] g IH]; cbn [group_add]; [simpl; lia|].
  destruct (PeriodM_eqb k k'); [simpl; lia|].
  destruct (PeriodM_ltb k k'); simpl in *; lia.
Qed.

Lemma fold_group_add_total (key : Row -> PeriodM) (rows : frame)
    (g : list (PeriodM * R)) :
  series_sum
    (map snd (fold_left (fun g r => group_add (key r) (amount r) g) rows g))
  = series_sum (map snd g) + series_sum (map amount rows)
  /\ (List.length
        (fold_left (fun g r => group_add (key r) (amount r) g) rows g)
      <= List.length g + List.length rows)%nat.
Proof.
  revert g.
  induction rows as [|r rows IH]; intros g; cbn [fold_left].
  - simpl. split; [lra | lia].
  - destruct (IH (group_add (key r) (amount r) g)) as [Hs Hl].
    rewrite Hs, group_add_total.
    pose proof (group_add_length (key r) (amount r) g).
    split; [simpl; lra | simpl; lia].
Qed.

Lemma group_lookup_keys (k : PeriodM) (g : list (PeriodM * R)) :
  In k (map fst g) <-> group_lookup k g <> None.
Proof.
  induction g as [|[k' s] g IH]; cbn [map fst In group_lookup].
  - tauto.
  - destruct (PeriodM_eqb k k') eqn:E.
    + apply PeriodM_eqb_eq in E. subst. split; [discriminate | tauto].
    + rewrite <- IH. split; [|tauto].
      intros [->|H]; [|exact H].
      rewrite PeriodM_eqb_refl in E. discriminate.
Qed.

Lemma key_total_some (key : Row -> PeriodM) (k : PeriodM) (rows : frame) :
  key_total key k rows <> None <-> exists r, In r rows /\ key r = k.
Proof.
  unfold key_total.
  destruct (filter (fun r => PeriodM_eqb (key r) k) rows) as [|r0 rs] eqn:E.
  - split; [intros H; exfalso; apply H; reflexivity|].
    intros (r & Hr & Hk). exfalso.
    assert (Hin : In r (filter (fun r => PeriodM_eqb (key r) k) rows)).
    { apply filter_In. split; [exact Hr | apply PeriodM_eqb_eq, Hk]. }
    rewrite E in Hin. exact Hin.
  - split; [|discriminate]. intros _.
    assert (Hin : In r0 (filter (fun r => PeriodM_eqb (key r) k) rows))
      by (rewrite E; left; reflexivity).
    apply filter_In in Hin. exists r0.
    split; [tauto | apply PeriodM_eqb_eq; tauto].
Qed.

Lemma groupby_sum_total (key : Row -> PeriodM) (rows : frame) :
  series_sum (map snd (groupby_sum key rows)) = series_sum (map amount rows).
Proof.
  unfold groupby_sum.
  rewrite (proj1 (fold_group_add_total key rows [])).
  unfold series_sum. simpl. lra.
Qed.

(** X7.  Grouping by month loses and invents nothing: the monthly sums
    add up to the sum of all amounts grouped, there is an entry for exactly
    the months in which a grouped record is dated, and there are at most as
    many entries as records. *)
Theorem groupby_sum_conserves (key : Row -> PeriodM) (rows : frame) :
  series_sum (map snd (groupby_sum key rows)) = series_sum (map amount rows)
  /\ (forall k, In k (map fst (groupby_sum key rows))
                <-> exists r, In r rows /\ key r = k)
  /\ (List.length (groupby_sum key rows) <= List.length rows)%nat.
Proof.
  destruct (fold_group_add_total key rows []) as [_ Hl].
  split; [|split].
  - apply groupby_sum_total.
  - intros k. rewrite group_lookup_keys.
    rewrite (proj2 (groupby_sum_spec key rows k)).
    apply key_total_some.
  - exact Hl.
Qed.

(** X8.  The average monthly income is the total income divided by the
    number of months that have a Credit record, and the average monthly
    expenses the total expenses divided by the number of months that have
    a Debit record; with no such month the average is NaN. *)
Theorem monthly_averages (d : frame) :
  let self := dashboard_of d in
  let m := calculate_advanced_metrics self in
  avg_monthly_income m
  = fdiv (total_income m)
         (Fin (INR (List.length (groupby_sum month (credits self)))))
  /\ avg_monthly_expenses m
     = fdiv (total_expenses m)
            (Fin (INR (List.length (groupby_sum month (debits self)))))
  /\ (credits self = [] -> avg_monthly_income m = NaN)
  /\ (debits self = [] -> avg_monthly_expenses m = NaN).
Proof.
  intros self m.
  assert (Hi : avg_monthly_income m
               = fdiv (total_income m)
                   (Fin (INR (List.length
                                (groupby_sum month (credits self)))))).
  { unfold m, calculate_advanced_metrics.
    cbn [avg_monthly_income total_income]. unfold series_mean.
    rewrite (groupby_sum_total month (credits self)), length_map.
    reflexivity. }
  assert (He : avg_monthly_expenses m
               = fdiv (total_expenses m)
                   (Fin (INR (List.length
                                (groupby_sum month (debits self)))))).
  { unfold m, calculate_advanced_metrics.
    cbn [avg_monthly_expenses total_expenses]. unfold series_mean.
    rewrite (groupby_sum_total month (debits self)), length_map.
    reflexivity. }
  split; [exact Hi|]. split; [exact He|]. split.
  - intros Hc. rewrite Hi. unfold m, calculate_advanced_metrics.
    cbn [total_income]. rewrite Hc. simpl.
    rewrite (proj2 (Reqb_true 0 0) eq_refl). apply signed_inf_zero.
  - intros Hc. rewrite He. unfold m, calculate_advanced_metrics.
    cbn [total_expenses]. rewrite Hc. simpl.
    rewrite (proj2 (Reqb_true 0 0) eq_refl). apply signed_inf_zero.
Qed.

Lemma monthly_averages_witness :
  avg_monthly_income (calculate_advanced_metrics (dashboard_of [duplicate_row]))
  = NaN.
Proof.
  apply (proj1 (proj2 (proj2 (monthly_averages [duplicate_row])))).
  reflexivity.
Defined.

(** X9.  The amounts of all records split into the total income, the
    total expenses and the amounts of the records of any other direction. *)
Theorem amounts_by_direction (d : frame) :
  let self := dashboard_of d in
  series_sum (map amount (data self))
  = series_sum (map amount (credits self))
    + series_sum (map amount (debits self))
    + series_sum
        (map amount
           (filter (fun r => negb (String.eqb (DrCr r) "Cr")
                             && negb (String.eqb (DrCr r) "Db")) d)).
Proof.
  cbv zeta. rewrite credits_filter, debits_filter. cbn [data dashboard_of].
  induction d as [|r d IH]; [simpl; lra|].
  cbn [filter map].
  destruct (String.eqb (DrCr r) "Cr") eqn:Ec;
    destruct (String.eqb (DrCr r) "Db") eqn:Ed;
    cbn [negb andb map]; unfold series_sum in *; cbn [fold_right];
    try lra.
  apply String.eqb_eq in Ec, Ed. rewrite Ec in Ed. discriminate.
Qed.

(* ================================================================== *)
(** * Small record sets and the z-score detector *)

Lemma series_sum_cons (x : R) (l : list R) :
  series_sum (x :: l) = x + series_sum l.
Proof. reflexivity. Qed.








(* ================================================================== *)
(** * The quartiles of the interquartile-range detector *)






Section Interpolation.

Variable den : nat.
Variable v : list R.
Hypothesis den_pos : (0 < den)%nat.
Hypothesis v_sorted : StronglySorted Rle v.





End Interpolation.





(* ================================================================== *)
(** * Grouping by any key *)

Section KeyInstances.

Local Open Scope Z_scope.

#[export] Instance Z_key_laws : KeyLaws Z.
Proof.
  constructor; cbn [key_eqb key_ltb Z_key]; intros.
  - apply Z.eqb_eq.
  - rewrite Z.ltb_lt in *. lia.
  - rewrite Z.ltb_lt in *. apply Z.eqb_neq. lia.
  - rewrite Z.ltb_lt. rewrite Z.eqb_neq, Z.ltb_ge in *. lia.
Qed.

#[export] Instance PeriodM_key_laws : KeyLaws PeriodM.
Proof.
  constructor; cbn [key_eqb key_ltb PeriodM_key].
  - apply PeriodM_eqb_eq.
  - apply PeriodM_ltb_trans.
  - apply PeriodM_ltb_neq.
  - apply PeriodM_trichotomy.
Qed.

#[export] Instance string_key_laws : KeyLaws string.
Proof.
  constructor; cbn [key_eqb key_ltb string_key]; unfold String.ltb.
  - apply String.eqb_eq.
  - intros a b c Hab Hbc.
    destruct (String.compare a b) eqn:Eab; try discriminate.
    destruct (String.compare b c) eqn:Ebc; try discriminate.
    apply OrderedTypeEx.String_as_OT.cmp_lt in Eab, Ebc.
    pose proof (OrderedTypeEx.String_as_OT.lt_trans _ _ _ Eab Ebc) as Hac.
    apply OrderedTypeEx.String_as_OT.cmp_lt in Hac.
    unfold OrderedTypeEx.String_as_OT.cmp in Hac. rewrite Hac. reflexivity.
  - intros a b Hab.
    destruct (String.compare a b) eqn:Eab; try discriminate.
    apply String.eqb_neq. intros ->.
    apply OrderedTypeEx.String_as_OT.cmp_lt in Eab.
    exact (OrderedTypeEx.String_as_OT.lt_not_eq _ _ Eab eq_refl).
  - intros a b Hne Hab.
    rewrite String.compare_antisym.
    destruct (String.compare a b) eqn:Eab; try discriminate.
    + apply String.compare_eq_iff in Eab. apply String.eqb_neq in Hne.
      contradiction.
    + reflexivity.
Qed.

#[export] Instance pair_key_laws (A B : Type) {ka : Key A} {kb : Key B}
    {la : KeyLaws A} {lb : KeyLaws B} : KeyLaws (A * B).
Proof.
  constructor; cbn [key_eqb key_ltb pair_key].
  - intros [a b] [a' b']. cbn [fst snd].
    rewrite andb_true_iff, !key_eqb_eq. split.
    + intros [-> ->]. reflexivity.
    + intros [= -> ->]. split; reflexivity.
  - intros [a b] [a' b'] [a'' b'']. cbn [fst snd].
    rewrite !orb_true_iff, !andb_true_iff, !key_eqb_eq.
    intros [H1|[-> H1]] [H2|[-> H2]].
    + left. eapply key_ltb_trans; eassumption.
    + left. exact H1.
    + left. exact H2.
    + right. split; [reflexivity|]. eapply key_ltb_trans; eassumption.
  - intros [a b] [a' b']. cbn [fst snd].
    rewrite orb_true_iff, andb_true_iff, andb_false_iff.
    intros [H|[_ H]]; [left | right]; apply key_ltb_neq; exact H.
  - intros [a b] [a' b']. cbn [fst snd].
    rewrite andb_false_iff, orb_false_iff, andb_false_iff, orb_true_iff,
      andb_true_iff.
    intros Hne [Hlt Hor].
    destruct (key_eqb a a') eqn:Ea.
    + right. apply key_eqb_eq in Ea. subst a'.
      split; [apply key_eqb_eq; reflexivity|].
      apply key_ltb_total; [|destruct Hor; [discriminate | assumption]].
      destruct Hne; [discriminate | assumption].
    + left. apply key_ltb_total; assumption.
Qed.

Lemma timestamp_fields_inj (a b : Timestamp) :
  timestamp_fields a = timestamp_fields b -> a = b.
Proof.
  destruct a, b. unfold timestamp_fields. cbn.
  intros [= -> -> -> -> -> ->]. reflexivity.
Qed.

#[export] Instance Timestamp_key_laws : KeyLaws Timestamp.
Proof.
  constructor; cbn [key_eqb key_ltb Timestamp_key]; intros.
  - rewrite key_eqb_eq. split; [apply timestamp_fields_inj | intros ->; reflexivity].
  - eapply key_ltb_trans; eassumption.
  - apply key_ltb_neq. assumption.
  - apply key_ltb_total; assumption.
Qed.

End KeyInstances.

Section GroupByLemmas.

Context {K : Type} {ops : Key K} {laws : KeyLaws K}.

Lemma key_eqb_refl (k : K) : key_eqb k k = true.
Proof. apply key_eqb_eq. reflexivity. Qed.

Lemma key_eqb_sym (a b : K) : key_eqb a b = key_eqb b a.
Proof.
  destruct (key_eqb a b) eqn:E1, (key_eqb b a) eqn:E2; try reflexivity.
  - apply key_eqb_eq in E1. subst. rewrite key_eqb_refl in E2. discriminate.
  - apply key_eqb_eq in E2. subst. rewrite key_eqb_refl in E1. discriminate.
Qed.

Lemma ascending_tail (V : Type) (e : K * V) (g : list (K * V)) :
  groups_ascending (e :: g) ->
  groups_ascending g
  /\ Forall (fun k => key_ltb (fst e) k = true) (map fst g).
Proof.
  unfold groups_ascending. cbn [map]. intros H.
  apply StronglySorted_inv in H. exact H.
Qed.

Lemma ascending_absent (V : Type) (k : K) (g : list (K * V)) :
  Forall (fun k' => key_ltb k k' = true) (map fst g) ->
  ~ In k (map fst g).
Proof.
  rewrite Forall_forall. intros H Hin.
  pose proof (key_ltb_neq _ _ (H k Hin)) as Hne.
  rewrite key_eqb_refl in Hne. discriminate.
Qed.

Lemma ascending_NoDup (V : Type) (g : list (K * V)) :
  groups_ascending g -> NoDup (map fst g).
Proof.
  induction g as [|e g IH]; intros H; cbn [map]; [constructor|].
  destruct (ascending_tail _ _ _ H) as [Hs Hall].
  constructor; [apply (ascending_absent _ _ _ Hall) | apply IH, Hs].
Qed.

Lemma get_group_absent (k : K) (g : list (K * frame)) :
  ~ In k (map fst g) -> get_group k g = [].
Proof.
  induction g as [|[k' rs] g IH]; cbn [get_group map fst In]; intros H;
    [reflexivity|].
  destruct (key_eqb k k') eqn:E.
  - apply key_eqb_eq in E. subst. tauto.
  - apply IH. tauto.
Qed.

Lemma series_get_absent (V : Type) (k : K) (s : list (K * V)) :
  ~ In k (map fst s) <-> series_get k s = None.
Proof.
  induction s as [|[k' x] s IH]; cbn [series_get map fst In].
  - tauto.
  - destruct (key_eqb k k') eqn:E.
    + apply key_eqb_eq in E. subst. split; [tauto | discriminate].
    + rewrite <- IH. split; [tauto|].
      intros H [->|Hin]; [|tauto].
      rewrite key_eqb_refl in E. discriminate.
Qed.

Lemma series_get_agg (V : Type) (f : frame -> V) (k : K)
    (g : list (K * frame)) :
  (In k (map fst g) -> series_get k (agg f g) = Some (f (get_group k g)))
  /\ (~ In k (map fst g) -> series_get k (agg f g) = None).
Proof.
  induction g as [|[k' rs] g [IH1 IH2]];
    cbn [agg map fst snd series_get get_group In].
  - split; [contradiction | reflexivity].
  - fold (agg f g). destruct (key_eqb k k') eqn:E.
    + apply key_eqb_eq in E. subst. split; [reflexivity | tauto].
    + split.
      * intros [->|H]; [|apply IH1, H].
        rewrite key_eqb_refl in E. discriminate.
      * intros H. apply IH2. tauto.
Qed.

Lemma group_insert_keys (k : K) (r : Row) (g : list (K * frame)) (k0 : K) :
  In k0 (map fst (group_insert k r g)) <-> k0 = k \/ In k0 (map fst g).
Proof.
  induction g as [|[k' rs] g IH]; cbn [group_insert map fst In].
  - intuition.
  - destruct (key_eqb k k') eqn:E.
    + apply key_eqb_eq in E. subst. cbn [map fst In]. intuition.
    + destruct (key_ltb k k'); cbn [map fst In]; [intuition|].
      rewrite IH. intuition.
Qed.

Lemma group_insert_ascending (k : K) (r : Row) (g : list (K * frame)) :
  groups_ascending g -> groups_ascending (group_insert k r g).
Proof.
  induction g as [|[k' rs] g IH]; cbn [group_insert]; intros Hs.
  - repeat constructor.
  - destruct (ascending_tail _ _ _ Hs) as [Hs' Hall]. cbn [fst] in Hall.
    destruct (key_eqb k k') eqn:He; [exact Hs|].
    destruct (key_ltb k k') eqn:Hl.
    + unfold groups_ascending. cbn [map fst].
      constructor; [exact Hs|].
      constructor; [exact Hl|].
      rewrite Forall_forall in *. intros k0 Hk0.
      eapply key_ltb_trans; [exact Hl | apply Hall, Hk0].
    + unfold groups_ascending. cbn [map fst].
      constructor; [apply IH, Hs'|].
      rewrite Forall_forall in *. intros k0 Hk0.
      apply group_insert_keys in Hk0. destruct Hk0 as [->|Hk0].
      * apply key_ltb_total; assumption.
      * apply Hall, Hk0.
Qed.

Lemma group_insert_get (k : K) (r : Row) (g : list (K * frame)) (k0 : K) :
  groups_ascending g ->
  get_group k0 (group_insert k r g)
  = if key_eqb k0 k then get_group k0 g ++ [r] else get_group k0 g.
Proof.
  induction g as [|[k' rs] g IH]; intros Hs.
  - cbn [group_insert get_group]. destruct (key_eqb k0 k); reflexivity.
  - destruct (ascending_tail _ _ _ Hs) as [Hs' Hall]. cbn [fst] in Hall.
    cbn [group_insert].
    destruct (key_eqb k k') eqn:He.
    + apply key_eqb_eq in He. subst k'. cbn [get_group].
      destruct (key_eqb k0 k); reflexivity.
    + destruct (key_ltb k k') eqn:Hl.
      * cbn [get_group].
        destruct (key_eqb k0 k) eqn:E0; [|reflexivity].
        apply key_eqb_eq in E0. subst k0. rewrite He.
        rewrite get_group_absent; [reflexivity|].
        apply ascending_absent.
        rewrite Forall_forall in *. intros k1 Hk1.
        eapply key_ltb_trans; [exact Hl | apply Hall, Hk1].
      * cbn [get_group]. rewrite (IH Hs').
        destruct (key_eqb k0 k') eqn:E1; [|reflexivity].
        apply key_eqb_eq in E1. subst k'.
        rewrite key_eqb_sym, He. reflexivity.
Qed.

Lemma groupby_fold (key : Row -> K) (rows : frame) (g : list (K * frame)) :
  groups_ascending g ->
  Forall (fun e => snd e <> []) g ->
  let g' := fold_left (fun g r => group_insert (key r) r g) rows g in
  groups_ascending g'
  /\ Forall (fun e => snd e <> []) g'
  /\ (forall k, get_group k g'
                = get_group k g ++ filter (fun r => key_eqb (key r) k) rows)
  /\ (forall k, In k (map fst g')
                <-> In k (map fst g) \/ exists r, In r rows /\ key r = k).
Proof.
  revert g.
  induction rows as [|r rows IH]; intros g Hs Hne; cbn [fold_left].
  - cbv zeta. split; [exact Hs|]. split; [exact Hne|]. split.
    + intros k. cbn [filter]. rewrite app_nil_r. reflexivity.
    + intros k. split; [tauto | intros [H|(r & [] & _)]; exact H].
  - assert (Hne' : Forall (fun e => snd e <> [])
                     (group_insert (key r) r g)).
    { clear -Hne. induction g as [|[k' rs] g IHg]; cbn [group_insert].
      - constructor; [discriminate | constructor].
      - inversion Hne as [|? ? H1 H2]; subst.
        destruct (key_eqb (key r) k').
        + constructor; [|exact H2]. cbn [snd]. destruct rs; discriminate.
        + destruct (key_ltb (key r) k').
          * constructor; [discriminate | exact Hne].
          * constructor; [exact H1 | apply IHg, H2]. }
    destruct (IH _ (group_insert_ascending (key r) r g Hs) Hne')
      as (Ha & Hb & Hc & Hd).
    cbv zeta. split; [exact Ha|]. split; [exact Hb|]. split.
    + intros k. rewrite Hc, (group_insert_get _ _ _ _ Hs). cbn [filter].
      rewrite (key_eqb_sym (key r) k).
      destruct (key_eqb k (key r)); [rewrite <- app_assoc|]; reflexivity.
    + intros k. rewrite Hd, group_insert_keys. split.
      * intros [[->|H]|(r0 & Hr0 & Hk)].
        -- right. exists r. simpl. tauto.
        -- tauto.
        -- right. exists r0. simpl. tauto.
      * intros [H|(r0 & [<-|Hr0] & Hk)].
        -- tauto.
        -- left. left. symmetry. exact Hk.
        -- right. exists r0. tauto.
Qed.

Lemma groupby_spec (key : Row -> K) (rows : frame) :
  groups_ascending (groupby key rows)
  /\ Forall (fun e => snd e <> []) (groupby key rows)
  /\ (forall k, get_group k (groupby key rows)
                = filter (fun r => key_eqb (key r) k) rows)
  /\ (forall k, In k (map fst (groupby key rows))
                <-> exists r, In r rows /\ key r = k).
Proof.
  destruct (groupby_fold key rows [] ltac:(constructor) ltac:(constructor))
    as (Ha & Hb & Hc & Hd).
  unfold groupby.
  split; [exact Ha|]. split; [exact Hb|]. split.
  - intros k. rewrite (Hc k). reflexivity.
  - intros k. rewrite (Hd k). cbn [map In]. tauto.
Qed.

Lemma get_group_entry (k : K) (rs : frame) (g : list (K * frame)) :
  groups_ascending g -> In (k, rs) g -> get_group k g = rs.
Proof.
  induction g as [|[k' rs'] g IH]; intros Hs Hin; [contradiction|].
  destruct (ascending_tail _ _ _ Hs) as [Hs' Hall]. cbn [fst] in Hall.
  cbn [get_group]. destruct Hin as [[= -> ->]|Hin].
  - rewrite key_eqb_refl. reflexivity.
  - destruct (key_eqb k k') eqn:E; [|apply IH; assumption].
    apply key_eqb_eq in E. subst k'. exfalso.
    apply (ascending_absent _ _ _ Hall).
    apply (in_map fst) in Hin. exact Hin.
Qed.

(** The entries of a grouped frame: each group is the rows of its key, in
    the order of the frame, and it is not empty. *)
Lemma groupby_entries (key : Row -> K) (rows : frame) (k : K) (rs : frame) :
  In (k, rs) (groupby key rows) ->
  rs = filter (fun r => key_eqb (key r) k) rows /\ rs <> [].
Proof.
  intros Hin. destruct (groupby_spec key rows) as (Ha & Hb & Hc & _).
  split.
  - rewrite <- (Hc k). symmetry. apply get_group_entry; assumption.
  - rewrite Forall_forall in Hb. exact (Hb _ Hin).
Qed.

End GroupByLemmas.

Section GroupedSeries.

Context {K : Type} {ops : Key K} {laws : KeyLaws K}.

Variable key : Row -> K.
Variable rows : frame.

(** The rows of a key. *)
Let of_key (k : K) : frame := filter (fun r => key_eqb (key r) k) rows.

Lemma groupby_normal_form :
  groupby key rows = map (fun k => (k, of_key k)) (map fst (groupby key rows)).
Proof.
  pose proof (fun k rs => groupby_entries key rows k rs) as He.
  induction (groupby key rows) as [|[k rs] g IH]; cbn [map fst]; [reflexivity|].
  f_equal.
  - f_equal. apply (He k rs). left. reflexivity.
  - apply IH. intros k' rs' Hin. apply He. right. exact Hin.
Qed.

Lemma agg_normal_form (V : Type) (f : frame -> V) :
  agg f (groupby key rows)
  = map (fun k => (k, f (of_key k))) (map fst (groupby key rows)).
Proof.
  rewrite groupby_normal_form at 1. unfold agg. rewrite map_map.
  reflexivity.
Qed.

Lemma of_key_nonempty (k : K) :
  of_key k <> [] <-> exists r, In r rows /\ key r = k.
Proof.
  unfold of_key. split.
  - intros H.
    destruct (filter (fun r => key_eqb (key r) k) rows) as [|r rs] eqn:E;
      [contradiction|].
    assert (Hin : In r (filter (fun r => key_eqb (key r) k) rows))
      by (rewrite E; left; reflexivity).
    apply filter_In in Hin. exists r.
    split; [tauto | apply key_eqb_eq; tauto].
  - intros (r & Hr & Hk) E.
    assert (Hin : In r (filter (fun r => key_eqb (key r) k) rows)).
    { apply filter_In. split; [exact Hr | apply key_eqb_eq, Hk]. }
    rewrite E in Hin. exact Hin.
Qed.

Lemma series_get_groupby (V : Type) (f : frame -> V) (k : K) :
  series_get k (agg f (groupby key rows)) = entry_of f (of_key k).
Proof.
  destruct (groupby_spec key rows) as (_ & _ & Hget & Hkeys).
  destruct (series_get_agg V f k (groupby key rows)) as [Hin Hout].
  destruct (of_key k) as [|r rs] eqn:E.
  - rewrite Hout; [reflexivity|].
    rewrite Hkeys, <- of_key_nonempty. intros H. apply H, E.
  - rewrite Hin.
    + rewrite Hget. fold (of_key k). rewrite E. reflexivity.
    + rewrite Hkeys, <- of_key_nonempty, E. discriminate.
Qed.

End GroupedSeries.

Section PartitionSum.

Context {K : Type} {ops : Key K} {laws : KeyLaws K}.

Variable f : Row -> R.
Variable key : Row -> K.

Lemma indicator_sum (k : K) (x : R) (labels : list K) :
  NoDup labels ->
  series_sum (map (fun l => if key_eqb k l then x else 0) labels)
  = if existsb (key_eqb k) labels then x else 0.
Proof.
  induction 1 as [|l labels Hl Hnd IH]; cbn [map existsb].
  - reflexivity.
  - rewrite series_sum_cons, IH.
    destruct (key_eqb k l) eqn:E; cbn [orb]; [|lra].
    apply key_eqb_eq in E. subst l.
    replace (existsb (key_eqb k) labels) with false; [lra|].
    symmetry. apply not_true_is_false. intros Hex.
    apply existsb_exists in Hex. destruct Hex as (l & Hin & Heq).
    apply key_eqb_eq in Heq. subst l. contradiction.
Qed.

Lemma series_sum_plus (A : Type) (g h : A -> R) (l : list A) :
  series_sum (map (fun a => g a + h a) l)
  = series_sum (map g l) + series_sum (map h l).
Proof.
  induction l as [|a l IH]; cbn [map].
  - unfold series_sum. simpl. lra.
  - rewrite !series_sum_cons, IH. lra.
Qed.

(** The sums over the rows of each label add up to the sum over the rows
    of any of the labels. *)
Lemma partition_sum (labels : list K) (rows : frame) :
  NoDup labels ->
  series_sum
    (map (fun l =>
            series_sum (map f (filter (fun r => key_eqb (key r) l) rows)))
         labels)
  = series_sum
      (map f (filter (fun r => existsb (key_eqb (key r)) labels) rows)).
Proof.
  intros Hnd.
  induction rows as [|r rows' IH]; cbn [filter map].
  - clear. induction labels as [|l labels IH]; cbn [map]; [reflexivity|].
    rewrite series_sum_cons, IH. unfold series_sum. simpl. lra.
  - transitivity
      (series_sum
         (map (fun l =>
                 (if key_eqb (key r) l then f r else 0)
                 + series_sum
                     (map f (filter (fun r => key_eqb (key r) l) rows')))
              labels)).
    + f_equal. apply map_ext. intros l.
      destruct (key_eqb (key r) l); cbn [map];
        [rewrite series_sum_cons|]; lra.
    + rewrite series_sum_plus, IH, (indicator_sum _ _ _ Hnd).
      destruct (existsb (key_eqb (key r)) labels); cbn [map];
        [rewrite series_sum_cons|]; lra.
Qed.

End PartitionSum.

(* ================================================================== *)
(** * The bar chart of spending by day of the week *)

Lemma filter_all_true (A : Type) (p : A -> bool) (l : list A) :
  (forall x, In x l -> p x = true) -> filter p l = l.
Proof.
  induction l as [|x l IH]; cbn [filter]; intros H; [reflexivity|].
  rewrite (H x) by (simpl; tauto). f_equal. apply IH.
  intros y Hy. apply H. simpl. tauto.
Qed.

Lemma day_name_in_order (t : Timestamp) : In (day_name t) day_order.
Proof.
  unfold day_name, day_order.
  destruct (dayofweek t) as [|p|p]; [simpl; tauto| |simpl; tauto].
  do 3 (destruct p as [p|p|]; try (simpl; tauto)).
Qed.

(** X12.  The bar chart of spending has the seven days from Monday to
    Sunday, in this order; the bar of a day is the sum of the Debit amounts
    of the records of that day, and it is missing (NaN) when the day has no
    Debit record.  On a preprocessed record set the bars add up to the
    total expenses. *)
Theorem day_spending_bars (d : frame) :
  let self := dashboard_of d in
  day_spending self
  = map (fun day =>
           (day,
            match filter (fun r => String.eqb (day_of_week r) day)
                         (debits self) with
            | [] => NaN
            | rs => Fin (series_sum (map amount rs))
            end))
        day_order
  /\ (Forall derived d ->
      series_sum (map (fun e => bar_height (snd e)) (day_spending self))
      = series_sum (map amount (debits self))).
Proof.
  intros self.
  assert (Hbars : day_spending self
                  = map (fun day =>
                           (day,
                            match filter
                                    (fun r => String.eqb (day_of_week r) day)
                                    (debits self) with
                            | [] => NaN
                            | rs => Fin (series_sum (map amount rs))
                            end))
                        day_order).
  { unfold day_spending, reindex. apply map_ext. intros day.
    rewrite (series_get_groupby day_of_week (debits self) _ sum_amount day).
    cbn [key_eqb string_key].
    destruct (filter (fun r => String.eqb (day_of_week r) day) (debits self));
      reflexivity. }
  split; [exact Hbars|]. intros Hd.
  rewrite Hbars, map_map. cbn [snd].
  transitivity
    (series_sum
       (map (fun day =>
               series_sum
                 (map amount
                    (filter (fun r => key_eqb (day_of_week r) day)
                            (debits self))))
            day_order)).
  - f_equal. apply map_ext. intros day. cbn [key_eqb string_key].
    destruct (filter (fun r => String.eqb (day_of_week r) day) (debits self));
      reflexivity.
  - rewrite (partition_sum amount day_of_week day_order (debits self)).
    + f_equal. f_equal. apply filter_all_true. intros r Hr.
      apply existsb_exists. exists (day_of_week r).
      split; [|apply key_eqb_refl].
      unfold self in Hr. rewrite debits_filter in Hr.
      apply filter_In in Hr. destruct Hr as [Hr _].
      rewrite Forall_forall in Hd. destruct (Hd r Hr) as (_ & -> & _).
      apply day_name_in_order.
    + unfold day_order. repeat constructor; simpl; intuition discriminate.
Qed.

Lemma day_spending_bars_witness :
  series_sum
    (map (fun e => bar_height (snd e)) (day_spending (dashboard_of example_rows)))
  = series_sum (map amount (debits (dashboard_of example_rows))).
Proof.
  apply (proj2 (day_spending_bars example_rows)).
  unfold example_rows. repeat constructor.
Defined.

(* ================================================================== *)
(** * The treemap of the largest spending categories *)

Section Descending.

Variable K : Type.

Let descending (a b : K * R) : Prop := snd b <= snd a.

Lemma insert_descending_perm (e : K * R) (l : list (K * R)) :
  Permutation (insert_descending e l) (e :: l).
Proof.
  induction l as [|e' l IH]; cbn [insert_descending]; [reflexivity|].
  destruct (Rlt_dec (snd e') (snd e)); [reflexivity|].
  rewrite IH. apply perm_swap.
Qed.

Lemma insert_descending_sorted (e : K * R) (l : list (K * R)) :
  StronglySorted descending l -> StronglySorted descending (insert_descending e l).
Proof.
  induction l as [|e' l IH]; cbn [insert_descending]; intros Hs.
  - repeat constructor.
  - apply StronglySorted_inv in Hs. destruct Hs as [Hs Hall].
    destruct (Rlt_dec (snd e') (snd e)) as [Hlt|Hge].
    + constructor; [constructor; assumption|].
      constructor; [unfold descending; lra|].
      rewrite Forall_forall in *. intros x Hx.
      specialize (Hall x Hx). unfold descending in *. lra.
    + constructor; [apply IH, Hs|].
      rewrite Forall_forall in *. intros x Hx.
      apply (Permutation_in _ (insert_descending_perm e l)) in Hx.
      destruct Hx as [<-|Hx]; [unfold descending; lra | apply Hall, Hx].
Qed.

Lemma sort_descending_spec (s : list (K * R)) :
  Permutation (sort_descending s) s
  /\ StronglySorted descending (sort_descending s).
Proof.
  unfold sort_descending.
  assert (H : forall acc,
             StronglySorted descending acc ->
             Permutation
               (fold_left (fun acc e => insert_descending e acc) s acc)
               (acc ++ s)
             /\ StronglySorted descending
                  (fold_left (fun acc e => insert_descending e acc) s acc)).
  { induction s as [|e s IH]; intros acc Hacc; cbn [fold_left].
    - rewrite app_nil_r. split; [reflexivity | exact Hacc].
    - destruct (IH _ (insert_descending_sorted e acc Hacc)) as [Hp Hs].
      split; [|exact Hs].
      rewrite Hp, insert_descending_perm.
      apply Permutation_middle. }
  destruct (H [] ltac:(constructor)) as [Hp Hs].
  split; assumption.
Qed.

Lemma sorted_app_cross (l1 l2 : list (K * R)) :
  StronglySorted descending (l1 ++ l2) ->
  forall a b, In a l1 -> In b l2 -> snd b <= snd a.
Proof.
  induction l1 as [|x l1 IH]; cbn [app]; intros Hs a b Ha Hb; [contradiction|].
  apply StronglySorted_inv in Hs. destruct Hs as [Hs Hall].
  destruct Ha as [<-|Ha]; [|eapply IH; eassumption].
  rewrite Forall_forall in Hall. apply (Hall b).
  apply in_or_app. right. exact Hb.
Qed.

Lemma sorted_app_left (l1 l2 : list (K * R)) :
  StronglySorted descending (l1 ++ l2) -> StronglySorted descending l1.
Proof.
  induction l1 as [|x l1 IH]; cbn [app]; intros Hs; [constructor|].
  apply StronglySorted_inv in Hs. destruct Hs as [Hs Hall].
  constructor; [apply IH, Hs|].
  rewrite Forall_forall in *. intros y Hy. apply Hall.
  apply in_or_app. left. exact Hy.
Qed.

(** The [n] largest entries of a series with distinct labels. *)
Lemma nlargest_spec (n : nat) (s : list (K * R)) :
  NoDup (map fst s) ->
  (List.length (nlargest n s) <= n)%nat
  /\ StronglySorted descending (nlargest n s)
  /\ NoDup (map fst (nlargest n s))
  /\ (forall e, In e (nlargest n s) -> In e s)
  /\ (forall e, In e s -> ~ In (fst e) (map fst (nlargest n s)) ->
                List.length (nlargest n s) = n
                /\ forall e', In e' (nlargest n s) -> snd e <= snd e').
Proof.
  intros Hnd. unfold nlargest.
  destruct (sort_descending_spec s) as [Hp Hs].
  set (l := sort_descending s) in *.
  pose proof (firstn_skipn n l) as Hsplit.
  assert (Hnd' : NoDup (map fst l)).
  { apply (Permutation_NoDup (l := map fst s)); [|exact Hnd].
    apply Permutation_map. symmetry. exact Hp. }
  split; [apply firstn_le_length|].
  split; [apply (sorted_app_left _ (skipn n l)); rewrite Hsplit; exact Hs|].
  split.
  { rewrite <- Hsplit, map_app in Hnd'. apply NoDup_app_remove_r in Hnd'.
    exact Hnd'. }
  split.
  { intros e He. apply (Permutation_in _ Hp).
    rewrite <- Hsplit. apply in_or_app. left. exact He. }
  intros e He Hout.
  assert (Hin : In e l) by (apply (Permutation_in _ (Permutation_sym Hp)), He).
  rewrite <- Hsplit in Hin. apply in_app_or in Hin.
  destruct Hin as [Hin|Hin].
  { exfalso. apply Hout. apply in_map. exact Hin. }
  split.
  - apply firstn_length_le.
    destruct (Nat.le_gt_cases n (List.length l)) as [Hle|Hgt]; [exact Hle|].
    rewrite skipn_all2 in Hin by lia. contradiction.
  - intros e' He'. apply (sorted_app_cross (firstn n l) (skipn n l)).
    + rewrite Hsplit. exact Hs.
    + exact He'.
    + exact Hin.
Qed.

End Descending.

(** X13.  The treemap shows at most fifteen names, each once, the largest
    sum first.  Each name shown is the name of a Debit record, with the sum
    of the Debit amounts of that name.  When a name of a Debit record is not
    shown, fifteen names are shown and each of them has a sum at least as
    large. *)
Theorem category_spending_largest (d : frame) :
  let self := dashboard_of d in
  let total := fun n : string =>
    series_sum
      (map amount (filter (fun r => String.eqb (name r) n) (debits self))) in
  let shown := category_spending self in
  (List.length shown <= 15)%nat
  /\ StronglySorted (fun a b => snd b <= snd a) shown
  /\ NoDup (map fst shown)
  /\ (forall n t, In (n, t) shown ->
                  t = total n
                  /\ exists r, In r (debits self) /\ name r = n)
  /\ (forall r, In r (debits self) -> ~ In (name r) (map fst shown) ->
                List.length shown = 15%nat
                /\ forall n t, In (n, t) shown -> total (name r) <= t).
Proof.
  intros self total shown.
  destruct (groupby_spec name (debits self)) as (Hasc & _ & _ & Hkeys).
  pose proof (agg_normal_form name (debits self) R sum_amount) as Hnf.
  set (s := agg sum_amount (groupby name (debits self))) in *.
  assert (Hfst : map fst s = map fst (groupby name (debits self))).
  { rewrite Hnf, map_map. cbn [fst]. rewrite map_id. reflexivity. }
  assert (Hentry : forall n t, In (n, t) s <->
                               t = total n
                               /\ exists r, In r (debits self) /\ name r = n).
  { intros n t. rewrite Hnf, in_map_iff. split.
    - intros (k & [= <- <-] & Hk). split; [reflexivity|].
      apply Hkeys. exact Hk.
    - intros [-> Hr]. exists n. split; [reflexivity|].
      apply Hkeys. exact Hr. }
  assert (Hnd : NoDup (map fst s)).
  { rewrite Hfst. apply ascending_NoDup. exact Hasc. }
  destruct (nlargest_spec string 15 s Hnd) as (H1 & H2 & H3 & H4 & H5).
  fold (category_spending self) in H1, H2, H3, H4, H5. fold shown in H1, H2, H3, H4, H5.
  split; [exact H1|]. split; [exact H2|]. split; [exact H3|]. split.
  - intros n t Hin. apply Hentry, H4, Hin.
  - intros r Hr Hout.
    assert (Hin : In (name r, total (name r)) s).
    { apply Hentry. split; [reflexivity|]. exists r. tauto. }
    destruct (H5 _ Hin Hout) as [Hlen Hdom].
    split; [exact Hlen|]. intros n t Hnt. exact (Hdom _ Hnt).
Qed.

(* ================================================================== *)
(** * The cumulative cash flow *)

Lemma cumsum_from_length (acc : R) (a : list R) :
  List.length (cumsum_from acc a) = List.length a.
Proof.
  revert acc. induction a as [|x a IH]; intros acc; cbn [cumsum_from List.length];
    [reflexivity|].
  rewrite IH. reflexivity.
Qed.

Lemma cumsum_length (a : list R) : List.length (cumsum a) = List.length a.
Proof.
  destruct a as [|x a]; cbn [cumsum List.length]; [reflexivity|].
  rewrite cumsum_from_length. reflexivity.
Qed.

Lemma combine_fst (A B : Type) (l : list A) (l' : list B) :
  List.length l = List.length l' -> map fst (combine l l') = l.
Proof.
  revert l'. induction l as [|a l IH]; intros [|b l'] H; cbn [combine map fst];
    try reflexivity; try discriminate.
  f_equal. apply IH. simpl in H. lia.
Qed.

Lemma running_sum_from (A : Type) (S : A -> R) (ks : list A) (acc : R)
    (t : A) (x : R) :
  In (t, x) (combine ks (cumsum_from acc (map S ks))) ->
  exists ks1 ks2,
    ks = ks1 ++ t :: ks2 /\ x = acc + series_sum (map S (ks1 ++ [t])).
Proof.
  revert acc.
  induction ks as [|k ks IH]; intros acc; cbn [map cumsum_from combine In];
    [contradiction|].
  intros [[= <- <-]|Hin].
  - exists [], ks. split; [reflexivity|]. cbn [app map].
    rewrite series_sum_cons. unfold series_sum. simpl. lra.
  - destruct (IH _ Hin) as (ks1 & ks2 & -> & ->).
    exists (k :: ks1), ks2. split; [reflexivity|].
    cbn [app map]. rewrite series_sum_cons. lra.
Qed.

Lemma running_sum (A : Type) (S : A -> R) (ks : list A) (t : A) (x : R) :
  In (t, x) (combine ks (cumsum (map S ks))) ->
  exists ks1 ks2,
    ks = ks1 ++ t :: ks2 /\ x = series_sum (map S (ks1 ++ [t])).
Proof.
  destruct ks as [|k ks]; cbn [map cumsum combine In]; [contradiction|].
  intros [[= <- <-]|Hin].
  - exists [], ks. split; [reflexivity|]. cbn [app map].
    rewrite series_sum_cons. unfold series_sum. simpl. lra.
  - destruct (running_sum_from _ S ks _ t x Hin) as (ks1 & ks2 & -> & ->).
    exists (k :: ks1), ks2. split; [reflexivity|].
    cbn [app map]. rewrite series_sum_cons. lra.
Qed.

Section AscendingKeys.

Context {K : Type} {ops : Key K} {laws : KeyLaws K}.

Lemma ascending_split (ks1 ks2 : list K) (t : K) :
  StronglySorted (fun k k' => key_ltb k k' = true) (ks1 ++ t :: ks2) ->
  (forall a, In a ks1 -> key_ltb a t = true)
  /\ (forall b, In b ks2 -> key_ltb t b = true).
Proof.
  induction ks1 as [|k ks1 IH]; cbn [app]; intros Hs.
  - apply StronglySorted_inv in Hs. destruct Hs as [_ Hall].
    rewrite Forall_forall in Hall. split; [intros a [] | exact Hall].
  - apply StronglySorted_inv in Hs. destruct Hs as [Hs Hall].
    destruct (IH Hs) as [H1 H2]. split; [|exact H2].
    rewrite Forall_forall in Hall.
    intros a [<-|Ha]; [|apply H1, Ha].
    apply Hall. apply in_or_app. right. left. reflexivity.
Qed.

Lemma key_ltb_asym (a b : K) :
  key_ltb a b = true -> key_ltb b a = false.
Proof.
  intros Hab. destruct (key_ltb b a) eqn:Hba; [|reflexivity].
  pose proof (key_ltb_neq _ _ (key_ltb_trans _ _ _ Hab Hba)) as H.
  rewrite key_eqb_refl in H. discriminate.
Qed.

Lemma key_ltb_irrefl (a : K) : key_ltb a a = false.
Proof.
  destruct (key_ltb a a) eqn:H; [|reflexivity].
  apply key_ltb_neq in H. rewrite key_eqb_refl in H. discriminate.
Qed.

(** In an ascending list of labels, the labels up to [t] are those that
    are not after [t]. *)
Lemma ascending_prefix (ks1 ks2 : list K) (t k : K) :
  StronglySorted (fun k k' => key_ltb k k' = true) (ks1 ++ t :: ks2) ->
  In k (ks1 ++ t :: ks2) ->
  existsb (key_eqb k) (ks1 ++ [t]) = negb (key_ltb t k).
Proof.
  intros Hs Hin. destruct (ascending_split _ _ _ Hs) as [H1 H2].
  apply in_app_or in Hin. destruct Hin as [Hin|[<-|Hin]].
  - rewrite (key_ltb_asym _ _ (H1 k Hin)). cbn [negb].
    apply existsb_exists. exists k.
    split; [apply in_or_app; tauto | apply key_eqb_refl].
  - rewrite key_ltb_irrefl. cbn [negb].
    apply existsb_exists. exists t.
    split; [apply in_or_app; simpl; tauto | apply key_eqb_refl].
  - rewrite (H2 k Hin). cbn [negb].
    apply not_true_is_false. intros Hex.
    apply existsb_exists in Hex. destruct Hex as (l & Hl & Heq).
    apply key_eqb_eq in Heq. subst l.
    apply in_app_or in Hl. destruct Hl as [Hl|[<-|[]]].
    + pose proof (key_ltb_asym _ _ (H1 k Hl)) as Hc.
      rewrite (H2 k Hin) in Hc. discriminate.
    + specialize (H2 _ Hin). rewrite key_ltb_irrefl in H2. discriminate.
Qed.

End AscendingKeys.

(** X14.  The cumulative cash flow has one point for each timestamp that
    occurs, in ascending order of time.  The value of the point at [t] is
    the sum of the amounts of all records dated at or before [t]; so the
    point of the latest timestamp holds the sum of all amounts. *)
Theorem cumulative_cash_flow_points (d : frame) :
  let points := cumulative_cash_flow (dashboard_of d) in
  StronglySorted (fun t t' => key_ltb t t' = true) (map fst points)
  /\ (forall t, In t (map fst points) <-> exists r, In r d /\ date r = t)
  /\ (forall t x,
         In (t, x) points ->
         x = series_sum
               (map amount (filter (fun r => negb (key_ltb t (date r))) d)))
  /\ (forall t x,
         In (t, x) points ->
         (forall r, In r d -> key_ltb t (date r) = false) ->
         x = series_sum (map amount d)).
Proof.
  intros points.
  destruct (groupby_spec date d) as (Hasc & _ & _ & Hkeys).
  pose proof (agg_normal_form date d R sum_amount) as Hnf.
  set (keys := map fst (groupby date d)) in *.
  set (S := fun k => sum_amount (filter (fun r => key_eqb (date r) k) d)).
  assert (Hpoints : points = combine keys (cumsum (map S keys))).
  { unfold points, cumulative_cash_flow. cbn [data dashboard_of].
    rewrite Hnf, !map_map. cbn [fst snd]. rewrite map_id. reflexivity. }
  assert (Hfst : map fst points = keys).
  { rewrite Hpoints. apply combine_fst.
    rewrite cumsum_length, length_map. reflexivity. }
  assert (Hvalue : forall t x,
             In (t, x) points ->
             x = series_sum
                   (map amount
                      (filter (fun r => negb (key_ltb t (date r))) d))).
  { intros t x Hin. rewrite Hpoints in Hin.
    destruct (running_sum _ S keys t x Hin) as (ks1 & ks2 & Hk & ->).
    unfold groups_ascending in Hasc. fold keys in Hasc. rewrite Hk in Hasc.
    assert (Hnd : NoDup (ks1 ++ [t])).
    { assert (Hnd : NoDup (ks1 ++ t :: ks2)).
      { rewrite <- Hk. apply (ascending_NoDup _ (groupby date d)).
        unfold groups_ascending. fold keys. rewrite Hk. exact Hasc. }
      replace (ks1 ++ t :: ks2) with ((ks1 ++ [t]) ++ ks2) in Hnd
        by (rewrite <- app_assoc; reflexivity).
      apply NoDup_app_remove_r in Hnd. exact Hnd. }
    unfold S, sum_amount.
    rewrite (partition_sum amount date (ks1 ++ [t]) d Hnd).
    f_equal. f_equal. apply filter_ext_in. intros r Hr.
    apply (ascending_prefix ks1 ks2 t (date r) Hasc).
    rewrite <- Hk. apply Hkeys. exists r. tauto. }
  split; [rewrite Hfst; exact Hasc|].
  split; [intros t; rewrite Hfst; apply Hkeys|].
  split; [exact Hvalue|].
  intros t x Hin Hlast. rewrite (Hvalue t x Hin).
  rewrite filter_all_true; [reflexivity|].
  intros r Hr. rewrite (Hlast r Hr). reflexivity.
Qed.

(* ================================================================== *)
(** * The recurring transactions *)



Section Recurring.

Variable d : frame.





End Recurring.



(* ================================================================== *)
(** * Tables by two keys *)

Section SortedLabels.

Context {K : Type} {ops : Key K} {laws : KeyLaws K}.

Let ascending (l : list K) : Prop :=
  StronglySorted (fun k k' => key_ltb k k' = true) l.

Lemma label_insert_In (k k0 : K) (l : list K) :
  In k0 (label_insert k l) <-> k0 = k \/ In k0 l.
Proof.
  induction l as [|k' l IH]; cbn [label_insert In].
  - intuition.
  - destruct (key_eqb k k') eqn:E.
    + apply key_eqb_eq in E. subst. cbn [In]. intuition.
    + destruct (key_ltb k k'); cbn [In]; [intuition|].
      rewrite IH. intuition.
Qed.

Lemma label_insert_ascending (k : K) (l : list K) :
  ascending l -> ascending (label_insert k l).
Proof.
  unfold ascending.
  induction l as [|k' l IH]; cbn [label_insert]; intros Hs.
  - repeat constructor.
  - apply StronglySorted_inv in Hs. destruct Hs as [Hs Hall].
    destruct (key_eqb k k') eqn:He; [constructor; assumption|].
    destruct (key_ltb k k') eqn:Hl.
    + constructor; [constructor; assumption|].
      constructor; [exact Hl|].
      rewrite Forall_forall in *. intros k0 Hk0.
      eapply key_ltb_trans; [exact Hl | apply Hall, Hk0].
    + constructor; [apply IH, Hs|].
      rewrite Forall_forall in *. intros k0 Hk0.
      apply label_insert_In in Hk0. destruct Hk0 as [->|Hk0].
      * apply key_ltb_total; assumption.
      * apply Hall, Hk0.
Qed.

Lemma sorted_labels_spec (l : list K) :
  ascending (sorted_labels l)
  /\ forall k, In k (sorted_labels l) <-> In k l.
Proof.
  unfold sorted_labels.
  assert (H : forall acc,
             ascending acc ->
             ascending (fold_left (fun acc k => label_insert k acc) l acc)
             /\ forall k,
                 In k (fold_left (fun acc k => label_insert k acc) l acc)
                 <-> In k acc \/ In k l).
  { induction l as [|k0 l IH]; intros acc Hacc; cbn [fold_left].
    - split; [exact Hacc|]. intros k. simpl. tauto.
    - destruct (IH _ (label_insert_ascending k0 acc Hacc)) as [Hs Hin].
      split; [exact Hs|]. intros k. rewrite Hin, label_insert_In.
      simpl. intuition. }
  destruct (H [] ltac:(constructor)) as [Hs Hin].
  split; [exact Hs|]. intros k. rewrite Hin. simpl. tauto.
Qed.

End SortedLabels.

Section Unstacked.

Context {A B : Type} {ka : Key A} {kb : Key B}
        {la : KeyLaws A} {lb : KeyLaws B}.

Variable V : Type.
Variable f : frame -> V.
Variable key1 : Row -> A.
Variable key2 : Row -> B.
Variable rows : frame.

Let table : Table A B V :=
  unstack (agg f (groupby (fun r => (key1 r, key2 r)) rows)).

Lemma unstack_groupby :
  StronglySorted (fun k k' => key_ltb k k' = true) (index table)
  /\ (forall a, In a (index table) <-> exists r, In r rows /\ key1 r = a)
  /\ StronglySorted (fun k k' => key_ltb k k' = true) (columns table)
  /\ (forall b, In b (columns table) <-> exists r, In r rows /\ key2 r = b)
  /\ (forall a b,
         cell table a b
         = entry_of f
             (filter (fun r => key_eqb (key1 r) a && key_eqb (key2 r) b)
                     rows)).
Proof.
  destruct (groupby_spec (fun r => (key1 r, key2 r)) rows)
    as (_ & _ & _ & Hkeys).
  set (g := groupby (fun r => (key1 r, key2 r)) rows) in *.
  assert (Hk1 : forall a,
             In a (map (fun e => fst (fst e)) (agg f g))
             <-> exists r, In r rows /\ key1 r = a).
  { intros a. unfold agg. rewrite map_map. cbn [fst]. split.
    - intros Hin. apply in_map_iff in Hin. destruct Hin as (e & <- & He).
      destruct (proj1 (Hkeys (fst e)) (in_map fst _ _ He)) as (r & Hr & Hk).
      exists r. split; [exact Hr|]. rewrite <- Hk. reflexivity.
    - intros (r & Hr & <-).
      assert (Hin : In (key1 r, key2 r) (map fst g))
        by (apply Hkeys; exists r; tauto).
      apply in_map_iff in Hin. destruct Hin as (e & He & Hin).
      apply in_map_iff. exists e. rewrite He. tauto. }
  assert (Hk2 : forall b,
             In b (map (fun e => snd (fst e)) (agg f g))
             <-> exists r, In r rows /\ key2 r = b).
  { intros b. unfold agg. rewrite map_map. cbn [fst]. split.
    - intros Hin. apply in_map_iff in Hin. destruct Hin as (e & <- & He).
      destruct (proj1 (Hkeys (fst e)) (in_map fst _ _ He)) as (r & Hr & Hk).
      exists r. split; [exact Hr|]. rewrite <- Hk. reflexivity.
    - intros (r & Hr & <-).
      assert (Hin : In (key1 r, key2 r) (map fst g))
        by (apply Hkeys; exists r; tauto).
      apply in_map_iff in Hin. destruct Hin as (e & He & Hin).
      apply in_map_iff. exists e. rewrite He. tauto. }
  unfold table, unstack. cbn [index columns cell]. fold g.
  destruct (sorted_labels_spec (map (fun e => fst (fst e)) (agg f g)))
    as [Hs1 Hin1].
  destruct (sorted_labels_spec (map (fun e => snd (fst e)) (agg f g)))
    as [Hs2 Hin2].
  split; [exact Hs1|].
  split; [intros a; rewrite Hin1; apply Hk1|].
  split; [exact Hs2|].
  split; [intros b; rewrite Hin2; apply Hk2|].
  intros a b. unfold g.
  rewrite (series_get_groupby (fun r => (key1 r, key2 r)) rows V f (a, b)).
  reflexivity.
Qed.

Lemma column_missing (b : B) :
  column table b = None <-> filter (fun r => key_eqb (key2 r) b) rows = [].
Proof.
  destruct unstack_groupby as (_ & _ & _ & Hcols & _).
  unfold column.
  destruct (existsb (key_eqb b) (columns table)) eqn:E.
  - split; [discriminate|]. intros Hnil. exfalso.
    apply existsb_exists in E. destruct E as (b' & Hb' & Heq).
    apply key_eqb_eq in Heq. subst b'.
    apply Hcols in Hb'. destruct Hb' as (r & Hr & Hk).
    assert (Hin : In r (filter (fun r => key_eqb (key2 r) b) rows)).
    { apply filter_In. split; [exact Hr | apply key_eqb_eq, Hk]. }
    rewrite Hnil in Hin. exact Hin.
  - split; [|reflexivity]. intros _.
    apply filter_nil_ext. intros r Hr.
    destruct (key_eqb (key2 r) b) eqn:Ek; [|reflexivity]. exfalso.
    apply key_eqb_eq in Ek.
    assert (Hex : existsb (key_eqb b) (columns table) = true).
    { apply existsb_exists. exists b. split; [|apply key_eqb_refl].
      apply Hcols. exists r. tauto. }
    rewrite E in Hex. discriminate.
Qed.

Lemma column_present (b : B) (col : list (A * option V)) :
  column table b = Some col ->
  col = map (fun a =>
               (a, entry_of f
                     (filter (fun r => key_eqb (key1 r) a)
                             (filter (fun r => key_eqb (key2 r) b) rows))))
            (index table).
Proof.
  destruct unstack_groupby as (_ & _ & _ & _ & Hcell).
  unfold column. destruct (existsb (key_eqb b) (columns table)); [|discriminate].
  intros [= <-]. apply map_ext. intros a.
  change (series_get (a, b)
            (agg f (groupby (fun r => (key1 r, key2 r)) rows)))
    with (cell table a b).
  rewrite Hcell. f_equal. f_equal.
  clear. induction rows as [|r rs IH]; cbn [filter]; [reflexivity|].
  destruct (key_eqb (key2 r) b); cbn [filter];
    destruct (key_eqb (key1 r) a); cbn [andb]; rewrite IH; reflexivity.
Qed.

End Unstacked.

(* ================================================================== *)
(** * The table of the monthly trends *)

(** X16.  The table of monthly income and expenses has a row for each
    month (of a year) in which a record is dated and a column for each
    direction that occurs, both in ascending order; a cell holds the sum of
    the amounts of that month and direction and is missing when there is no
    such record.  Reading the income column raises KeyError exactly when
    there is no Credit record, reading the expenses column exactly when
    there is no Debit record; an income column that is there holds, month
    by month, the sum of the Credit amounts. *)
Theorem monthly_summary_table (d : frame) :
  let self := dashboard_of d in
  let t := monthly_summary self in
  StronglySorted (fun k k' => PeriodM_ltb k k' = true) (index t)
  /\ (forall k, In k (index t)
                <-> exists r, In r d /\ to_period_M (date r) = k)
  /\ (forall c, In c (columns t) <-> exists r, In r d /\ DrCr r = c)
  /\ (forall k c,
         cell t k c
         = entry_of sum_amount
             (filter (fun r => PeriodM_eqb (to_period_M (date r)) k
                               && String.eqb (DrCr r) c) d))
  /\ (income_trace self = None <-> credits self = [])
  /\ (expenses_trace self = None <-> debits self = [])
  /\ (forall col,
         income_trace self = Some col ->
         col = map (fun k =>
                      (k, entry_of sum_amount
                            (filter (fun r => PeriodM_eqb
                                                (to_period_M (date r)) k)
                                    (credits self))))
                   (index t)).
Proof.
  intros self t.
  destruct (unstack_groupby R sum_amount
              (fun r => to_period_M (date r)) DrCr d)
    as (Hs1 & Hi & _ & Hc & Hcell).
  fold (monthly_summary self) in Hs1, Hi, Hc, Hcell.
  split; [exact Hs1|]. split; [exact Hi|]. split; [exact Hc|].
  split; [exact Hcell|].
  unfold income_trace, expenses_trace, self.
  rewrite credits_filter, debits_filter.
  split; [exact (column_missing R sum_amount
                   (fun r => to_period_M (date r)) DrCr d "Cr"%string)|].
  split; [exact (column_missing R sum_amount
                   (fun r => to_period_M (date r)) DrCr d "Db"%string)|].
  intros col Hcol.
  exact (column_present R sum_amount
           (fun r => to_period_M (date r)) DrCr d "Cr"%string col Hcol).
Qed.

(* ================================================================== *)
(** * The table of the transaction frequency *)

Lemma sorted_weaken (A : Type) (R1 R2 : A -> A -> Prop) (l : list A) :
  StronglySorted R1 l -> (forall a b, R1 a b -> R2 a b) ->
  StronglySorted R2 l.
Proof.
  intros Hs Himp. induction Hs as [|a l Hs IH Hall]; constructor.
  - exact IH.
  - rewrite Forall_forall in *. intros x Hx. apply Himp, Hall, Hx.
Qed.

(** X17.  The heatmap has a row for each day name and a column for each
    hour at which a record is dated, both in ascending order; a cell holds
    the number of records of that day name and hour, and it is missing
    when there is none. *)
Theorem transaction_freq_table (d : frame) :
  let t := transaction_freq (dashboard_of d) in
  StronglySorted (fun a b => String.ltb a b = true) (index t)
  /\ StronglySorted (fun a b => (a < b)%Z) (columns t)
  /\ (forall day, In day (index t)
                  <-> exists r, In r d /\ day_name (date r) = day)
  /\ (forall h, In h (columns t) <-> exists r, In r d /\ hour (date r) = h)
  /\ (forall day h,
         let count :=
           List.length
             (filter (fun r => String.eqb (day_name (date r)) day
                               && (hour (date r) =? h)%Z) d) in
         cell t day h = if (count =? 0)%nat then None else Some count).
Proof.
  intros t.
  destruct (unstack_groupby nat (fun rows => List.length rows)
              (fun r => day_name (date r)) (fun r => hour (date r)) d)
    as (Hs1 & Hi & Hs2 & Hc & Hcell).
  fold (transaction_freq (dashboard_of d)) in Hs1, Hi, Hs2, Hc, Hcell.
  fold t in Hs1, Hi, Hs2, Hc, Hcell.
  split; [exact Hs1|]. split.
  { apply (sorted_weaken _ _ _ (columns t) Hs2).
    intros a b Hab. apply Z.ltb_lt. exact Hab. }
  split; [exact Hi|]. split; [exact Hc|].
  intros day h count. rewrite Hcell. cbn [key_eqb string_key Z_key].
  fold count. unfold count.
  destruct (filter (fun r => String.eqb (day_name (date r)) day
                             && (hour (date r) =? h)%Z) d);
    reflexivity.
Qed.

(* ================================================================== *)
(** * The charts of small record sets *)

Lemma category_spending_largest_witness :
  50 + 0
  = series_sum
      (map amount
         (filter (fun r => String.eqb (name r) "X")
                 (debits (dashboard_of [duplicate_row]))))
  /\ exists r, In r (debits (dashboard_of [duplicate_row])) /\ name r = "X"%string.
Proof.
  apply (proj1 (proj2 (proj2 (proj2
           (category_spending_largest [duplicate_row]))))).
  left. reflexivity.
Defined.

Lemma cumulative_cash_flow_points_witness :
  100 + 0
  = series_sum
      (map amount
         (filter (fun r =>
                    negb (key_ltb (mkTimestamp 2024 1 3 14 0 0) (date r)))
                 example_rows)).
Proof.
  apply (proj1 (proj2 (proj2 (cumulative_cash_flow_points example_rows)))).
  left. reflexivity.
Defined.

Lemma monthly_summary_table_witness :
  income_trace (dashboard_of [duplicate_row]) = None.
Proof.
  apply (proj1 (proj2 (proj2 (proj2 (proj2
           (monthly_summary_table [duplicate_row])))))).
  reflexivity.
Defined.

(* ================================================================== *)
(** * When the volatility message is produced *)



(* ================================================================== *)
(** * Zero total income and the pipeline *)












